(** * Upload & results client (src/frontend/app.js)

    A shallow embedding of the browser-side controller: the pending-file
    list, the submission workflow and the result renderer, followed by the
    properties of the specification that concern them. *)

From Stdlib Require Import String Ascii Bool Arith ZArith NArith QArith Qround Qabs Lia List.
From Stdlib Require Import DecimalString.
From Stdlib Require DecimalPos DecimalN.
Import ListNotations.
Close Scope Q_scope.

Set Implicit Arguments.
Set Warnings "-register-all".

(** ** JavaScript strings

    A JavaScript string is a sequence of UTF-16 code units.  String literals
    of the source are written with [lit]. *)

Definition code_unit := N.
Definition jsstring := list code_unit.

Definition lit (s : string) : jsstring :=
  map N_of_ascii (list_ascii_of_string s).

Fixpoint str_eqb (a b : jsstring) : bool :=
  match a, b with
  | [], [] => true
  | x :: a', y :: b' => N.eqb x y && str_eqb a' b'
  | _, _ => false
  end.

Definition amp : code_unit := 38%N.
Definition lt_sign : code_unit := 60%N.
Definition gt_sign : code_unit := 62%N.

(** [str.replace(/c/g, r)] for a one-character pattern [c] and a replacement
    [r] that holds no [$]: every occurrence of [c] becomes [r]. *)
Definition replace_all (c : code_unit) (r : jsstring) (s : jsstring) : jsstring :=
  flat_map (fun x => if N.eqb x c then r else [x]) s.

(** app.js, escapeHtml: three passes, [&] first. *)
Definition escapeHtml (str : jsstring) : jsstring :=
  replace_all gt_sign (lit "&gt;")
    (replace_all lt_sign (lit "&lt;")
       (replace_all amp (lit "&amp;") str)).

(** The specification's wording: each character is replaced on its own. *)
Definition escape_unit (c : code_unit) : jsstring :=
  if N.eqb c amp then lit "&amp;"
  else if N.eqb c lt_sign then lit "&lt;"
  else if N.eqb c gt_sign then lit "&gt;"
  else [c].

(** Decimal text of a non-negative integer. *)
Definition decimal (n : N) : jsstring :=
  lit (NilZero.string_of_uint (N.to_uint n)).

(** ** Numbers

    A number is a double.  Only comparisons against constants and tests for
    zero are computed here, and these are exact on the real value of a finite
    double, so a finite double is the rational it denotes. *)

Inductive num : Type :=
| Fin (q : Q)
| PInf
| NInf
| NaN.

Definition num_of_Z (z : Z) : num := Fin (inject_Z z).
Definition num_of_nat (n : nat) : num := num_of_Z (Z.of_nat n).

(** [a >= b] *)
Definition num_geb (a b : num) : bool :=
  match a, b with
  | NaN, _ | _, NaN => false
  | Fin x, Fin y => Qle_bool y x
  | PInf, _ => true
  | _, NInf => true
  | _, _ => false
  end.

(** [a <= b] *)
Definition num_leb (a b : num) : bool := num_geb b a.

Definition num_truthy (n : num) : bool :=
  match n with
  | Fin q => negb (Qeq_bool q 0%Q)
  | NaN => false
  | PInf | NInf => true
  end.

(** ** Values

    What [JSON.parse] returns, together with [undefined], which reading an
    absent property yields.  An object lists its own properties; its keys
    are distinct, as they are after parsing. *)

Inductive value : Type :=
| VUndef
| VNull
| VBool (b : bool)
| VNum (n : num)
| VStr (s : jsstring)
| VArr (items : list value)
| VObj (fields : list (jsstring * value)).

Fixpoint own (k : jsstring) (fields : list (jsstring * value)) : option value :=
  match fields with
  | [] => None
  | (k', v) :: rest => if str_eqb k k' then Some v else own k rest
  end.

Definition has_own (k : jsstring) (fields : list (jsstring * value)) : bool :=
  match own k fields with Some _ => true | None => false end.

(** ToBoolean *)
Definition truthy (v : value) : bool :=
  match v with
  | VUndef | VNull => false
  | VBool b => b
  | VNum n => num_truthy n
  | VStr s => negb (Nat.eqb (length s) 0)
  | VArr _ | VObj _ => true
  end.

(** [v !== undefined] *)
Definition is_defined (v : value) : bool :=
  match v with VUndef => false | _ => true end.

(** ** Errors and completions *)

Record js_error : Type := { message : jsstring }.

(** [new Error(msg)] for a string [msg] *)
Definition Error (msg : jsstring) : js_error := {| message := msg |}.

(** The places where the script can raise a [TypeError]; the wording of its
    message is the engine's. *)
Inductive type_error : Type :=
| ReadOfNullish (of_null : bool) (k : jsstring)
| NotAFunction (callee : jsstring)
| NoPrimitive.

Inductive completion (A : Type) : Type :=
| Normal (a : A)
| Throw (e : js_error).

Arguments Normal {A} a.
Arguments Throw {A} e.

Definition cbind {A B} (c : completion A) (k : A -> completion B) : completion B :=
  match c with
  | Normal a => k a
  | Throw e => Throw e
  end.

(** ** The engine

    Number formatting and parsing are the engine's floating-point routines,
    and the messages of its own errors are its own wording: the script is
    modelled over any engine. *)

Record Engine : Type := {
  number_toString : num -> jsstring;          (* String(n) *)
  number_toFixed1 : num -> jsstring;          (* n.toFixed(1) *)
  number_toLocaleString : num -> jsstring;    (* n.toLocaleString() *)
  number_div : num -> num -> num;             (* a / b *)
  string_toNumber : jsstring -> num;          (* Number(s) *)
  string_parseFloat : jsstring -> num;        (* parseFloat(s) *)
  type_error_message : type_error -> jsstring
}.

Section Conversions.

Variable E : Engine.

Definition throw_type (t : type_error) {A} : completion A :=
  Throw {| message := type_error_message E t |}.

(** [v.k] for a property name [k] that no prototype defines ([detail],
    [results], [text], ...), and [v.length]. *)
Definition get_prop (v : value) (k : jsstring) : completion value :=
  match v with
  | VUndef => throw_type (ReadOfNullish false k)
  | VNull => throw_type (ReadOfNullish true k)
  | VBool _ | VNum _ => Normal VUndef
  | VStr s =>
      if str_eqb k (lit "length") then Normal (VNum (num_of_nat (length s)))
      else Normal VUndef
  | VArr l =>
      if str_eqb k (lit "length") then Normal (VNum (num_of_nat (length l)))
      else Normal VUndef
  | VObj fields =>
      match own k fields with
      | Some x => Normal x
      | None => Normal VUndef
      end
  end.

(** [v[0]] *)
Definition get_first (v : value) : completion value :=
  match v with
  | VUndef => throw_type (ReadOfNullish false (lit "0"))
  | VNull => throw_type (ReadOfNullish true (lit "0"))
  | VBool _ | VNum _ => Normal VUndef
  | VStr s =>
      match s with
      | [] => Normal VUndef
      | c :: _ => Normal (VStr [c])
      end
  | VArr l =>
      match l with
      | [] => Normal VUndef
      | x :: _ => Normal x
      end
  | VObj fields =>
      match own (lit "0") fields with
      | Some x => Normal x
      | None => Normal VUndef
      end
  end.

(** ToString.  A parsed object takes [toString] from [Object.prototype]
    unless a property of its own hides it; such a property is never a
    function, and the conversion then fails. *)
Fixpoint toStr (v : value) : completion jsstring :=
  match v with
  | VUndef => Normal (lit "undefined")
  | VNull => Normal (lit "null")
  | VBool b => Normal (if b then lit "true" else lit "false")
  | VNum n => Normal (number_toString E n)
  | VStr s => Normal s
  | VArr l =>
      (fix join (l : list value) : completion jsstring :=
         match l with
         | [] => Normal []
         | x :: rest =>
             cbind (match x with
                    | VUndef | VNull => Normal []
                    | _ => toStr x
                    end)
               (fun s =>
                  match rest with
                  | [] => Normal s
                  | _ :: _ => cbind (join rest) (fun r => Normal (s ++ lit "," ++ r))
                  end)
         end) l
  | VObj fields =>
      if has_own (lit "toString") fields then throw_type NoPrimitive
      else Normal (lit "[object Object]")
  end.

(** [v.toLocaleString()] for a [v] that is not [null] or [undefined]. *)
Fixpoint toLocaleStr (v : value) : completion jsstring :=
  match v with
  | VUndef => throw_type (ReadOfNullish false (lit "toLocaleString"))
  | VNull => throw_type (ReadOfNullish true (lit "toLocaleString"))
  | VBool b => Normal (if b then lit "true" else lit "false")
  | VNum n => Normal (number_toLocaleString E n)
  | VStr s => Normal s
  | VArr l =>
      (fix join (l : list value) : completion jsstring :=
         match l with
         | [] => Normal []
         | x :: rest =>
             cbind (match x with
                    | VUndef | VNull => Normal []
                    | _ => toLocaleStr x
                    end)
               (fun s =>
                  match rest with
                  | [] => Normal s
                  | _ :: _ => cbind (join rest) (fun r => Normal (s ++ lit "," ++ r))
                  end)
         end) l
  | VObj fields =>
      if has_own (lit "toLocaleString") fields
      then throw_type (NotAFunction (lit "toLocaleString"))
      else if has_own (lit "toString") fields
      then throw_type (NotAFunction (lit "toString"))
      else Normal (lit "[object Object]")
  end.

(** ToNumber *)
Definition toNumber (v : value) : completion num :=
  match v with
  | VUndef => Normal NaN
  | VNull => Normal (num_of_Z 0)
  | VBool b => Normal (num_of_Z (if b then 1 else 0))
  | VNum n => Normal n
  | VStr s => Normal (string_toNumber E s)
  | VArr _ | VObj _ => cbind (toStr v) (fun s => Normal (string_toNumber E s))
  end.

(** [parseFloat(v)] *)
Definition parseFloat (v : value) : completion num :=
  cbind (toStr v) (fun s => Normal (string_parseFloat E s)).

(** [new Error(v).message] for a [v] other than [undefined] *)
Definition new_Error (v : value) : completion js_error :=
  cbind (toStr v) (fun s => Normal (Error s)).

(** [escapeHtml(v)]: [v.replace] is a function on strings only. *)
Definition escapeHtml_dyn (v : value) : completion jsstring :=
  match v with
  | VStr s => Normal (escapeHtml s)
  | VUndef => throw_type (ReadOfNullish false (lit "replace"))
  | VNull => throw_type (ReadOfNullish true (lit "replace"))
  | _ => throw_type (NotAFunction (lit "str.replace"))
  end.

End Conversions.

(** ** The page

    The elements the script looks up by id.  The static page is taken to
    hold every one of them. *)

Inductive elem_id : Type :=
| file_list | process_btn_wrap | process_btn
| panel_empty | panel_loading | panel_results
| res_pages | res_words | res_chars | res_conf | res_doc_badge | res_text
| stat_processed | stat_success | stat_confidence | stat_time
| pages_section | pages_list
| toast | toast_msg.

Definition elem_id_eq_dec (a b : elem_id) : {a = b} + {a <> b}.
Proof. decide equality. Defined.

(** An entry of the file list: the holes of the template of renderFileList. *)
Record file_item : Type := {
  fi_name : jsstring;
  fi_size : jsstring;
  fi_index : nat          (* the argument of [removeFile] in [onclick] *)
}.

(** An entry of the page list: the holes of the template of renderPages. *)
Record page_item : Type := {
  pi_num : jsstring;
  pi_confClass : jsstring;
  pi_conf : jsstring;
  pi_words : jsstring;
  pi_bodyId : jsstring;
  pi_chevId : jsstring;
  pi_text : jsstring      (* the content of [<div class="page-text">] *)
}.

Inductive node : Type :=
| FileItem (f : file_item)
| PageItem (p : page_item).

(** What an element holds.  The fixed templates of the script are named
    rather than spelled out. *)
Inductive content : Type :=
| Static                    (* the markup of the static page *)
| Text (s : jsstring)       (* after [textContent = s] *)
| Nodes (l : list node)     (* after [innerHTML = ''] and [appendChild] *)
| ProcessingLabel           (* spinner icon, "Processing..." *)
| DefaultLabel              (* play icon, "Process Document" *)
| ScannedBadge              (* doc-type-badge scanned *)
| TextBadge.                (* doc-type-badge text *)

Definition em_dash : code_unit := 8212%N.

(** The label a badge shows. *)
Definition badge_label (c : content) : option jsstring :=
  match c with
  | ScannedBadge => Some (lit "Scanned document " ++ [em_dash] ++ lit " OCR applied")
  | TextBadge => Some (lit "Text-based PDF " ++ [em_dash] ++ lit " Direct extraction")
  | _ => None
  end.

Record element : Type := {
  disabled : bool;
  display : jsstring;       (* style.display *)
  className : jsstring;
  shown : bool;             (* classList holds 'show' *)
  inner : content
}.

Definition set_disabled (b : bool) (e : element) : element :=
  {| disabled := b; display := display e; className := className e;
     shown := shown e; inner := inner e |}.

Definition set_display (d : jsstring) (e : element) : element :=
  {| disabled := disabled e; display := d; className := className e;
     shown := shown e; inner := inner e |}.

Definition set_className (c : jsstring) (e : element) : element :=
  {| disabled := disabled e; display := display e; className := c;
     shown := shown e; inner := inner e |}.

Definition set_shown (b : bool) (e : element) : element :=
  {| disabled := disabled e; display := display e; className := className e;
     shown := b; inner := inner e |}.

Definition set_inner (c : content) (e : element) : element :=
  {| disabled := disabled e; display := display e; className := className e;
     shown := shown e; inner := c |}.

(** [appendChild]; the script appends only after [innerHTML = '']. *)
Definition append_child (n : node) (e : element) : element :=
  set_inner (match inner e with
             | Nodes l => Nodes (l ++ [n])
             | _ => Nodes [n]
             end) e.

Definition children (e : element) : list node :=
  match inner e with
  | Nodes l => l
  | _ => []
  end.

Definition document := elem_id -> element.

Definition update (id : elem_id) (f : element -> element) (d : document) : document :=
  fun j => if elem_id_eq_dec j id then f (d j) else d j.

(** ** The client state *)

Record File : Type := {
  name : jsstring;
  size : N;                 (* bytes *)
  type : jsstring           (* MIME type *)
}.

Record request : Type := {
  url : jsstring;
  method : jsstring;
  body : list (jsstring * File)     (* the parts of the FormData *)
}.

Record state : Type := {
  selectedFiles : list File;
  currentResult : value;            (* [null] until a submission succeeds *)
  startTime : option Z;             (* [null], or milliseconds *)
  dom : document;
  requests : list request;          (* the calls of [fetch], oldest first *)
  timers : list N                   (* the delays passed to [setTimeout] *)
}.

Definition set_selectedFiles (l : list File) (st : state) : state :=
  {| selectedFiles := l; currentResult := currentResult st;
     startTime := startTime st; dom := dom st;
     requests := requests st; timers := timers st |}.

Definition set_currentResult (v : value) (st : state) : state :=
  {| selectedFiles := selectedFiles st; currentResult := v;
     startTime := startTime st; dom := dom st;
     requests := requests st; timers := timers st |}.

Definition set_startTime (t : option Z) (st : state) : state :=
  {| selectedFiles := selectedFiles st; currentResult := currentResult st;
     startTime := t; dom := dom st;
     requests := requests st; timers := timers st |}.

Definition set_dom (d : document) (st : state) : state :=
  {| selectedFiles := selectedFiles st; currentResult := currentResult st;
     startTime := startTime st; dom := d;
     requests := requests st; timers := timers st |}.

Definition add_request (r : request) (st : state) : state :=
  {| selectedFiles := selectedFiles st; currentResult := currentResult st;
     startTime := startTime st; dom := dom st;
     requests := requests st ++ [r]; timers := timers st |}.

Definition add_timer (delay : N) (st : state) : state :=
  {| selectedFiles := selectedFiles st; currentResult := currentResult st;
     startTime := startTime st; dom := dom st;
     requests := requests st; timers := timers st ++ [delay] |}.

(** ** Statements: state passing with exceptions *)

Definition M (A : Type) : Type := state -> completion A * state.

Definition ret {A} (a : A) : M A := fun st => (Normal a, st).

Definition bind {A B} (m : M A) (k : A -> M B) : M B :=
  fun st =>
    match m st with
    | (Normal a, st') => k a st'
    | (Throw e, st') => (Throw e, st')
    end.

Definition throw {A} (e : js_error) : M A := fun st => (Throw e, st).

Definition lift {A} (c : completion A) : M A := fun st => (c, st).

Definition gets {A} (f : state -> A) : M A := fun st => (Normal (f st), st).

Definition modify (f : state -> state) : M unit := fun st => (Normal tt, f st).

(** [document.getElementById(id).field = ...] *)
Definition on_element (id : elem_id) (f : element -> element) : M unit :=
  modify (fun st => set_dom (update id f (dom st)) st).

Declare Scope js_scope.
Delimit Scope js_scope with js.
Notation "x <- m ;; k" := (bind m (fun x => k))
  (at level 61, m at next level, right associativity) : js_scope.
Notation "m ;; k" := (bind m (fun _ => k))
  (at level 61, right associativity) : js_scope.

(** [try { body } catch (err) { handler err } finally { final }] *)
Definition try_catch_finally {A} (body : M A) (handler : js_error -> M A)
    (final : M unit) : M A :=
  fun st =>
    let (r1, st1) :=
      match body st with
      | (Normal a, st') => (Normal a, st')
      | (Throw e, st') => handler e st'
      end in
    match final st1 with
    | (Normal _, st2) => (r1, st2)
    | (Throw e, st2) => (Throw e, st2)
    end.

(** [list.forEach((x, i) => f x i)] *)
Fixpoint forEach_from {A} (i : nat) (f : A -> nat -> M unit) (l : list A) : M unit :=
  match l with
  | [] => ret tt
  | x :: rest => bind (f x i) (fun _ => forEach_from (S i) f rest)
  end.

Definition forEach {A} (f : A -> nat -> M unit) (l : list A) : M unit :=
  forEach_from 0 f l.

(** ** The outside world

    What one submission meets: the clock when it starts, how [fetch] and
    [res.json()] settle, and the clock when the reply has been read.  A
    request that never settles is not a value of [world]. *)

Inductive json_result : Type :=
| Parsed (v : value)
| Unparsable (e : js_error).

Inductive fetch_result : Type :=
| Rejected (e : js_error)                       (* network failure *)
| Response (status : N) (payload : json_result).

Record world : Type := {
  now_start : Z;
  reply : fetch_result;
  now_end : Z
}.

(** [res.ok] *)
Definition res_ok (status : N) : bool :=
  (N.leb 200 status && N.leb status 299)%bool.

(** ** The script *)

Definition API : jsstring := lit "http://localhost:8000".

(** [conf >= 90 ? 'green' : conf >= 70 ? 'yellow' : 'red'], in renderResults *)
Definition confColor (conf : num) : jsstring :=
  if num_geb conf (num_of_Z 90) then lit "green"
  else if num_geb conf (num_of_Z 70) then lit "yellow"
  else lit "red".

(** [conf >= 90 ? 'high' : conf >= 70 ? 'mid' : 'low'], in renderPages *)
Definition confClass (conf : num) : jsstring :=
  if num_geb conf (num_of_Z 90) then lit "high"
  else if num_geb conf (num_of_Z 70) then lit "mid"
  else lit "low".

(** [data.is_scanned !== undefined ? (data.is_scanned ? scanned : text) : ''] *)
Definition docBadge (is_scanned : value) : content :=
  if is_defined is_scanned
  then (if truthy is_scanned then ScannedBadge else TextBadge)
  else Nodes [].

(** [array.splice(start, deleteCount)] on the array [l], for integers *)
Definition splice {A} (start deleteCount : Z) (l : list A) : list A :=
  let len := Z.of_nat (length l) in
  let actualStart :=
    if (start <? 0)%Z then Z.max (len + start) 0 else Z.min start len in
  let actualDeleteCount := Z.min (Z.max deleteCount 0) (len - actualStart) in
  firstn (Z.to_nat actualStart) l
    ++ skipn (Z.to_nat (actualStart + actualDeleteCount)) l.

Section Script.

Variable E : Engine.

Local Open Scope js_scope.

Definition prop (v : value) (k : string) : M value :=
  lift (get_prop E v (lit k)).

(** [a || b] where [b] is a constant *)
Definition or_const (a b : value) : value :=
  if truthy a then a else b.

Definition formatSize (bytes : N) : jsstring :=
  if N.ltb bytes 1024 then decimal bytes ++ lit " B"
  else if N.ltb bytes 1048576
  then number_toFixed1 E (number_div E (num_of_Z (Z.of_N bytes)) (num_of_Z 1024))
         ++ lit " KB"
  else number_toFixed1 E (number_div E (num_of_Z (Z.of_N bytes)) (num_of_Z 1048576))
         ++ lit " MB".

Definition renderFileList : M unit :=
  on_element file_list (set_inner (Nodes [])) ;;
  files <- gets selectedFiles ;;
  if Nat.eqb (length files) 0
  then on_element process_btn_wrap (set_display (lit "none"))
  else
    on_element process_btn_wrap (set_display (lit "block")) ;;
    forEach
      (fun file i =>
         on_element file_list
           (append_child
              (FileItem {| fi_name := name file;
                           fi_size := formatSize (size file);
                           fi_index := i |})))
      files.

Definition addFiles (files : list File) : M unit :=
  modify (fun st => set_selectedFiles (selectedFiles st ++ files) st) ;;
  renderFileList.

Definition removeFile (index : Z) : M unit :=
  modify (fun st => set_selectedFiles (splice index 1 (selectedFiles st)) st) ;;
  renderFileList.

Definition showPanel (panel : jsstring) : M unit :=
  on_element panel_empty (set_display (lit "none")) ;;
  on_element panel_loading (set_display (lit "none")) ;;
  on_element panel_results (set_display (lit "none")) ;;
  (if str_eqb panel (lit "empty")
   then on_element panel_empty (set_display (lit "flex")) else ret tt) ;;
  (if str_eqb panel (lit "loading")
   then on_element panel_loading (set_display (lit "block")) else ret tt) ;;
  (if str_eqb panel (lit "results")
   then on_element panel_results (set_display (lit "block")) else ret tt).

Definition showToast (msg : jsstring) : M unit :=
  on_element toast_msg (set_inner (Text msg)) ;;
  on_element toast (set_shown true) ;;
  modify (add_timer 2500).

Definition updateStats (pages : value) (conf elapsed : num) : M unit :=
  p <- lift (toStr E pages) ;;
  on_element stat_processed (set_inner (Text p)) ;;
  on_element stat_success (set_inner (Text (lit "100%"))) ;;
  on_element stat_confidence
    (set_inner (Text (number_toFixed1 E conf ++ lit "%"))) ;;
  on_element stat_time
    (set_inner (Text (number_toString E elapsed ++ lit "s"))).

(** The body of the callback of [pages.forEach]. *)
Definition renderPage (page : value) (i : nat) : M unit :=
  pn <- prop page "page_number" ;;
  let num := or_const pn (VNum (num_of_nat (i + 1))) in
  c <- prop page "confidence" ;;
  conf <- lift (parseFloat E (or_const c (VNum (num_of_Z 0)))) ;;
  wc <- prop page "word_count" ;;
  let words := or_const wc (VNum (num_of_Z 0)) in
  let id := lit "page-body-" ++ decimal (N.of_nat i) in
  let chevId := lit "chev-" ++ decimal (N.of_nat i) in
  num_s <- lift (toStr E num) ;;
  words_s <- lift (toStr E words) ;;
  t <- prop page "text" ;;
  text_s <- lift (escapeHtml_dyn E (or_const t (VStr (lit "No text")))) ;;
  on_element pages_list
    (append_child
       (PageItem {| pi_num := num_s;
                    pi_confClass := confClass conf;
                    pi_conf := number_toFixed1 E conf;
                    pi_words := words_s;
                    pi_bodyId := id;
                    pi_chevId := chevId;
                    pi_text := text_s |})).

Definition renderPages (pages : value) : M unit :=
  on_element pages_list (set_inner (Nodes [])) ;;
  hide <- (if negb (truthy pages) then ret true
           else
             len <- prop pages "length" ;;
             n <- lift (toNumber E len) ;;
             ret (num_leb n (num_of_Z 1))) ;;
  if (hide : bool)
  then on_element pages_section (set_display (lit "none"))
  else
    on_element pages_section (set_display (lit "block")) ;;
    match pages with
    | VArr l => forEach renderPage l
    | _ => lift (throw_type E (NotAFunction (lit "pages.forEach")))
    end.

Definition renderResults (data : value) (elapsed : num) : M unit :=
  ac <- prop data "average_confidence" ;;
  c <- (if truthy ac then ret ac
        else
          dc <- prop data "confidence" ;;
          ret (or_const dc (VNum (num_of_Z 0)))) ;;
  conf <- lift (parseFloat E c) ;;
  pc <- prop data "page_count" ;;
  let pages := or_const pc (VNum (num_of_Z 1)) in
  tw <- prop data "total_words" ;;
  let words := or_const tw (VNum (num_of_Z 0)) in
  tc <- prop data "total_characters" ;;
  let chars := or_const tc (VNum (num_of_Z 0)) in
  pages_s <- lift (toStr E pages) ;;
  on_element res_pages (set_inner (Text pages_s)) ;;
  words_s <- lift (toLocaleStr E words) ;;
  on_element res_words (set_inner (Text words_s)) ;;
  chars_s <- lift (toLocaleStr E chars) ;;
  on_element res_chars (set_inner (Text chars_s)) ;;
  on_element res_conf (set_inner (Text (number_toFixed1 E conf ++ lit "%"))) ;;
  on_element res_conf (set_className (lit "meta-value " ++ confColor conf)) ;;
  sc <- prop data "is_scanned" ;;
  on_element res_doc_badge (set_inner (docBadge sc)) ;;
  tx <- prop data "text" ;;
  text_s <- lift (toStr E (or_const tx (VStr (lit "No text extracted")))) ;;
  on_element res_text (set_inner (Text text_s)) ;;
  updateStats pages conf elapsed ;;
  ps <- prop data "pages" ;;
  renderPages ps.

(** [await fetch(url, {method: 'POST', body: formData})] *)
Definition fetch (w : world) (r : request) : M N :=
  modify (add_request r) ;;
  match reply w with
  | Rejected e => throw e
  | Response status _ => ret status
  end.

(** [await res.json()] *)
Definition res_json (w : world) : M value :=
  match reply w with
  | Rejected e => throw e
  | Response _ (Parsed v) => ret v
  | Response _ (Unparsable e) => throw e
  end.

(** [await res.json().catch(() => ({}))] *)
Definition res_json_or_empty (w : world) : M value :=
  match reply w with
  | Response _ (Parsed v) => ret v
  | _ => ret (VObj [])
  end.

(** The request of processFiles: one part per file, all named [files]. *)
Definition upload (files : list File) : request :=
  {| url := API ++ lit "/ocr/process";
     method := lit "POST";
     body := map (fun file => (lit "files", file)) files |}.

(** processFiles, the [try] block *)
Definition attempt (w : world) : M unit :=
  files <- gets selectedFiles ;;
  status <- fetch w (upload files) ;;
  (if negb (res_ok status)
   then
     err <- res_json_or_empty w ;;
     d <- prop err "detail" ;;
     e <- lift (new_Error E
                  (or_const d (VStr (lit "HTTP " ++ decimal status)))) ;;
     throw e
   else ret tt) ;;
  apiResponse <- res_json w ;;
  results <- prop apiResponse "results" ;;
  empty <- (if negb (truthy results) then ret true
            else
              len <- prop results "length" ;;
              ret (negb (truthy len))) ;;
  (if (empty : bool)
   then throw (Error (lit "No OCR results returned from server"))
   else ret tt) ;;
  first <- lift (get_first E results) ;;
  firstDoc <- prop first "ocr_result" ;;
  t0 <- gets startTime ;;
  let ms := (now_end w - match t0 with Some t => t | None => 0 end)%Z in
  let elapsed :=
    number_toFixed1 E (number_div E (num_of_Z ms) (num_of_Z 1000)) in
  modify (set_currentResult firstDoc) ;;
  renderResults firstDoc (string_parseFloat E elapsed) ;;
  showPanel (lit "results").

(** processFiles, the [catch] block *)
Definition report (err : js_error) : M unit :=
  showToast (lit "Error: " ++ message err) ;;
  showPanel (lit "empty").

(** processFiles, the [finally] block *)
Definition release : M unit :=
  on_element process_btn (set_disabled false) ;;
  on_element process_btn (set_inner DefaultLabel).

Definition processFiles (w : world) : M unit :=
  files <- gets selectedFiles ;;
  if Nat.eqb (length files) 0 then ret tt
  else
    on_element process_btn (set_disabled true) ;;
    on_element process_btn (set_inner ProcessingLabel) ;;
    showPanel (lit "loading") ;;
    modify (set_startTime (Some (now_start w))) ;;
    try_catch_finally (attempt w) report release.

End Script.

(** ** An engine to run examples

    It formats and reads numbers with at most one decimal exactly, which is
    all the examples below use; finer values are rounded to one decimal.
    Error messages follow V8. *)

Module SimpleEngine.

Definition signed_decimal (z : Z) : jsstring :=
  (if (z <? 0)%Z then lit "-" else []) ++ decimal (Z.to_N (Z.abs z)).

Definition toFixed1 (n : num) : jsstring :=
  match n with
  | NaN => lit "NaN"
  | PInf => lit "Infinity"
  | NInf => lit "-Infinity"
  | Fin q =>
      let tenths := Qfloor (Qabs q * inject_Z 10 + (1 # 2))%Q in
      (if (Qnum q <? 0)%Z then lit "-" else [])
        ++ decimal (Z.to_N (tenths / 10)) ++ lit "."
        ++ decimal (Z.to_N (tenths mod 10))
  end.

Definition toString (n : num) : jsstring :=
  match n with
  | Fin q =>
      if (Qnum q mod Zpos (Qden q) =? 0)%Z
      then signed_decimal (Qnum q / Zpos (Qden q))
      else toFixed1 n
  | _ => toFixed1 n
  end.

Definition div (a b : num) : num :=
  match a, b with
  | Fin x, Fin y => if Qeq_bool y 0 then NaN else Fin (x / y)%Q
  | _, _ => NaN
  end.

Definition digit_of (c : code_unit) : option Z :=
  if (N.leb 48 c && N.leb c 57)%bool then Some (Z.of_N (c - 48)) else None.

(** Reads digits: their value after [acc], how many, and what follows. *)
Fixpoint read_digits (s : jsstring) (acc : Z) (count : nat) : Z * nat * jsstring :=
  match s with
  | [] => (acc, count, [])
  | c :: rest =>
      match digit_of c with
      | Some d => read_digits rest (acc * 10 + d)%Z (S count)
      | None => (acc, count, s)
      end
  end.

Definition read_unsigned (s : jsstring) : option (Q * jsstring) :=
  match read_digits s 0 0 with
  | (_, O, _) => None
  | (whole, _, rest) =>
      match rest with
      | 46%N :: after =>
          match read_digits after 0 0 with
          | (_, O, _) => Some (inject_Z whole, rest)
          | (frac, k, rest') =>
              Some ((inject_Z whole
                       + Qmake frac (Pos.pow 10 (Pos.of_nat k)))%Q, rest')
          end
      | _ => Some (inject_Z whole, rest)
      end
  end.

Definition read_number (s : jsstring) : option (Q * jsstring) :=
  match s with
  | 45%N :: rest =>
      match read_unsigned rest with
      | Some (q, r) => Some (Qopp q, r)
      | None => None
      end
  | _ => read_unsigned s
  end.

Definition parse_float (s : jsstring) : num :=
  match read_number s with
  | Some (q, _) => Fin q
  | None => NaN
  end.

Definition to_number (s : jsstring) : num :=
  match s with
  | [] => num_of_Z 0
  | _ => match read_number s with
         | Some (q, []) => Fin q
         | _ => NaN
         end
  end.

Definition error_text (t : type_error) : jsstring :=
  match t with
  | ReadOfNullish of_null k =>
      lit "Cannot read properties of "
        ++ (if of_null then lit "null" else lit "undefined")
        ++ lit " (reading '" ++ k ++ lit "')"
  | NotAFunction callee => callee ++ lit " is not a function"
  | NoPrimitive => lit "Cannot convert object to primitive value"
  end.

Definition engine : Engine :=
  {| number_toString := toString;
     number_toFixed1 := toFixed1;
     number_toLocaleString := toString;
     number_div := div;
     string_toNumber := to_number;
     string_parseFloat := parse_float;
     type_error_message := error_text |}.

End SimpleEngine.

Definition blank : element :=
  {| disabled := false; display := []; className := []; shown := false;
     inner := Static |}.

(** The state when the page has just been loaded. *)
Definition initial : state :=
  {| selectedFiles := []; currentResult := VNull; startTime := None;
     dom := fun _ => blank; requests := []; timers := [] |}.

(** The text an element shows, when the script has set one. *)
Definition text_of (e : element) : option jsstring :=
  match inner e with
  | Text s => Some s
  | _ => None
  end.

Definition run {A} (m : M A) (st : state) : state := snd (m st).
Definition outcome {A} (m : M A) (st : state) : completion A := fst (m st).

(** * Vocabulary of the specification *)

(** The three confidence tiers, as the specification separates them. *)
Inductive tier : Type := good | warning | critical.


(** How each renderer shows a tier. *)
Definition tier_color (t : tier) : jsstring :=
  match t with
  | good => lit "green"
  | warning => lit "yellow"
  | critical => lit "red"
  end.

Definition tier_class (t : tier) : jsstring :=
  match t with
  | good => lit "high"
  | warning => lit "mid"
  | critical => lit "low"
  end.

(** The list without its entry at position [k]. *)
Definition without {A} (k : nat) (l : list A) : list A :=
  firstn k l ++ skipn (S k) l.

(** An index outside the positions [0 .. length - 1]. *)
Definition out_of_bounds {A} (index : Z) (l : list A) : Prop :=
  (index < 0 \/ Z.of_nat (length l) <= index)%Z.

(** Several calls of addFiles, one per batch, in order. *)
Definition addBatches (E : Engine) (batches : list (list File)) (st : state) : state :=
  fold_left (fun st files => run (addFiles E files) st) batches st.

(** Sample data for the examples. *)
Definition scan_pdf : File :=
  {| name := lit "scan.pdf"; size := 204800; type := lit "application/pdf" |}.
Definition photo_png : File :=
  {| name := lit "photo.png"; size := 512; type := lit "image/png" |}.
Definition notes_pdf : File :=
  {| name := lit "notes.pdf"; size := 3145728; type := lit "application/pdf" |}.

Definition two_pending : state :=
  run (addFiles SimpleEngine.engine [scan_pdf; photo_png]) initial.

(** The state in which the [try] block of processFiles starts. *)
Definition started (w : world) (st : state) : state :=
  run (bind (on_element process_btn (set_disabled true)) (fun _ =>
       bind (on_element process_btn (set_inner ProcessingLabel)) (fun _ =>
       bind (showPanel (lit "loading")) (fun _ =>
       modify (set_startTime (Some (now_start w))))))) st.

(** The error the [if (!res.ok)] block of processFiles throws. *)
Definition rejection (E : Engine) (status : N) (payload : json_result) : js_error :=
  let err := match payload with
             | Parsed v => v
             | Unparsable _ => VObj []
             end in
  match get_prop E err (lit "detail") with
  | Throw e => e
  | Normal d =>
      match toStr E (or_const d (VStr (lit "HTTP " ++ decimal status))) with
      | Normal s => Error s
      | Throw e => e
      end
  end.

(** The failures of a submission that the specification names: the request
    does not complete, the status is not 2xx, or the reply has no results
    or an empty array of them. *)
Inductive submission_failure (E : Engine) (w : world) : Prop :=
| network_failure (e : js_error) :
    reply w = Rejected e -> submission_failure E w
| status_failure (status : N) (payload : json_result) :
    reply w = Response status payload -> res_ok status = false ->
    submission_failure E w
| results_failure (status : N) (v r : value) :
    reply w = Response status (Parsed v) -> res_ok status = true ->
    get_prop E v (lit "results") = Normal r ->
    r = VUndef \/ r = VNull \/ r = VArr [] ->
    submission_failure E w.


(** Replies for the examples. *)
Definition replied (r : fetch_result) : world :=
  {| now_start := 1000; reply := r; now_end := 3250 |}.

Definition too_large : world :=
  replied (Response 413
             (Parsed (VObj [(lit "detail", VStr (lit "file too large"))]))).



Definition page_of (number confidence words : Z) (text : string) : value :=
  VObj [(lit "page_number", VNum (num_of_Z number));
        (lit "confidence", VNum (num_of_Z confidence));
        (lit "word_count", VNum (num_of_Z words));
        (lit "text", VStr (lit text))].

(** The result of section 8 of the specification. *)
Definition hello_document : value :=
  VObj [(lit "text", VStr (lit "Hello"));
        (lit "average_confidence", VNum (Fin (925 # 10)));
        (lit "page_count", VNum (num_of_Z 2));
        (lit "total_words", VNum (num_of_Z 1));
        (lit "total_characters", VNum (num_of_Z 5));
        (lit "is_scanned", VBool true);
        (lit "pages", VArr [page_of 1 95 1 "Hello"; page_of 2 90 0 ""])].

Definition hello_reply : world :=
  replied (Response 200
             (Parsed (VObj [(lit "results",
                             VArr [VObj [(lit "ocr_result", hello_document)]])]))).

(** The state after the result above has been shown. *)
Definition hello_shown : state :=
  run (processFiles SimpleEngine.engine hello_reply) two_pending.

(** The state renderPages reaches before it renders any entry. *)
Definition show_section (d : string) (st : state) : state :=
  let st0 := set_dom (update pages_list (set_inner (Nodes [])) (dom st)) st in
  set_dom (update pages_section (set_display (lit d)) (dom st0)) st0.

(** The flag as the specification wants it for a badge: a boolean. *)
Definition explicit_boolean (v : value) : Prop := exists b, v = VBool b.

(** A badge is on the page. *)
Definition badge_rendered (st : state) : Prop :=
  badge_label (inner (dom st res_doc_badge)) <> None.

(** A result whose origin the server does not know. *)
Definition null_flag_document : value :=
  VObj [(lit "text", VStr (lit "Hello"));
        (lit "average_confidence", VNum (Fin (925 # 10)));
        (lit "is_scanned", VNull)].



(** [m] keeps [P]: whatever [m] does from a state where [P] holds, and
    whether it returns or throws, [P] holds afterwards. *)
Definition keeps (P : state -> Prop) {A} (m : M A) : Prop :=
  forall st, P st -> P (snd (m st)).

(** * The rest of the script

    The handlers and actions of app.js that the properties above do not
    need, over the same state. *)

(** [s.startsWith(prefix)] *)
Fixpoint startsWith (s prefix : jsstring) {struct prefix} : bool :=
  match prefix, s with
  | [], _ => true
  | p :: prefix', c :: s' => N.eqb c p && startsWith s' prefix'
  | _ :: _, [] => false
  end.

(** The filter of the [drop] handler:
    [f.type === 'application/pdf' || f.type.startsWith('image/')] *)
Definition accepted (f : File) : bool :=
  str_eqb (type f) (lit "application/pdf") || startsWith (type f) (lit "image/").

(** The client state together with what the selection handlers touch
    besides: the class of the upload zone and the selection that the file
    input holds. *)
Record page : Type := {
  client : state;
  drag_over : bool;           (* zone.classList holds 'drag-over' *)
  input_files : list File     (* fileInput.files *)
}.

(** Runs a statement of the script on the client state of the page. *)
Definition on_client {A} (m : M A) (p : page) : completion A * page :=
  let (r, st) := m (client p) in
  (r, {| client := st; drag_over := drag_over p; input_files := input_files p |}).

(** The [dragover] and [dragleave] listeners of the zone *)
Definition dragover (p : page) : page :=
  {| client := client p; drag_over := true; input_files := input_files p |}.

Definition dragleave (p : page) : page :=
  {| client := client p; drag_over := false; input_files := input_files p |}.

(** The [drop] listener of the zone; [files] is [e.dataTransfer.files]. *)
Definition drop (E : Engine) (files : list File) (p : page) : completion unit * page :=
  let p1 := dragleave p in
  let files := filter accepted files in
  if negb (Nat.eqb (length files) 0) then on_client (addFiles E files) p1
  else (Normal tt, p1).

(** The [change] listener of the file input; [e.target.files] is the
    selection of the input, which [fileInput.value = ''] empties. *)
Definition change (E : Engine) (p : page) : completion unit * page :=
  let files := input_files p in
  let (r, p1) :=
    if negb (Nat.eqb (length files) 0) then on_client (addFiles E files) p
    else (Normal tt, p) in
  match r with
  | Normal _ =>
      (Normal tt, {| client := client p1; drag_over := drag_over p1;
                     input_files := [] |})
  | Throw e => (Throw e, p1)
  end.

(** How [navigator.clipboard] answers. *)
Inductive clipboard_access : Type :=
| NoClipboard        (* [navigator.clipboard] is undefined *)
| Denied             (* [writeText] rejects *)
| Granted.           (* [writeText] resolves *)

Section Exports.

Variable E : Engine.

Local Open Scope js_scope.

(** copyText; returns the text handed to [writeText], if it is called. *)
Definition copyText (access : clipboard_access) : M (option jsstring) :=
  cur <- gets currentResult ;;
  if negb (truthy cur) then ret None
  else
    (match access with
     | NoClipboard => lift (throw_type E (ReadOfNullish false (lit "writeText")))
     | _ => ret tt
     end) ;;
    t <- prop E cur "text" ;;
    text <- lift (toStr E (or_const t (VStr []))) ;;
    (match access with
     | Granted => showToast (lit "Copied to clipboard!")
     | _ => ret tt
     end) ;;
    ret (Some text).

(** downloadText; returns the name and the text of the file it offers, if
    it offers one. *)
Definition downloadText : M (option (jsstring * jsstring)) :=
  cur <- gets currentResult ;;
  if negb (truthy cur) then ret None
  else
    t <- prop E cur "text" ;;
    text <- lift (toStr E (or_const t (VStr []))) ;;
    showToast (lit "Download started!") ;;
    ret (Some (lit "ocr-result.txt", text)).

End Exports.

(** For each id, whether an element has it and, if so, whether its class
    list holds ['open']. *)
Definition open_classes := jsstring -> option bool.

Definition set_open (id : jsstring) (b : bool) (c : open_classes) : open_classes :=
  fun j => if str_eqb j id then Some b else c j.

(** togglePage *)
Definition togglePage (E : Engine) (bodyId chevId : jsstring) (c : open_classes)
  : completion unit * open_classes :=
  match c bodyId with
  | None => (throw_type E (ReadOfNullish true (lit "classList")), c)
  | Some was_open =>
      let open := negb was_open in
      let c1 := set_open bodyId open c in
      match c chevId with
      | None => (throw_type E (ReadOfNullish true (lit "classList")), c1)
      | Some _ => (Normal tt, set_open chevId open c1)
      end
  end.

(** * Vocabulary of the further properties *)

(** The entries renderFileList makes for the files [l], the first of them
    at position [i]. *)
Fixpoint file_entries (E : Engine) (i : nat) (l : list File) : list node :=
  match l with
  | [] => []
  | file :: rest =>
      FileItem {| fi_name := name file;
                  fi_size := formatSize E (size file);
                  fi_index := i |}
        :: file_entries E (S i) rest
  end.

(** The page shows the pending list: one entry per file, in order, and the
    process button exactly when there is a file. *)
Definition shows_pending (E : Engine) (st : state) : Prop :=
  children (dom st file_list) = file_entries E 0 (selectedFiles st) /\
  display (dom st process_btn_wrap)
  = if Nat.eqb (length (selectedFiles st)) 0 then lit "none" else lit "block".

(** Two states that no read of the script can tell apart. *)
Definition same_state (a b : state) : Prop :=
  selectedFiles a = selectedFiles b /\
  currentResult a = currentResult b /\
  startTime a = startTime b /\
  (forall id, dom a id = dom b id) /\
  requests a = requests b /\
  timers a = timers b.

(** [P] does not depend on the page. *)
Definition page_blind (P : state -> Prop) : Prop :=
  forall st d, P st -> P (set_dom d st).

(** [P] does not depend on what rendering and reporting write: the page,
    the clock reading, the timers. *)
Definition render_blind (P : state -> Prop) : Prop :=
  forall st, P st ->
    (forall d, P (set_dom d st)) /\
    (forall t, P (set_startTime t st)) /\
    (forall n, P (add_timer n st)).

(** Whenever [m] returns, [Q] holds of the state it leaves. *)
Definition returns {A} (Q : state -> Prop) (m : M A) : Prop :=
  forall st a st', m st = (Normal a, st') -> Q st'.

(** The panels: which of the three is displayed. *)
Definition panels (st : state) : jsstring * jsstring * jsstring :=
  (display (dom st panel_empty), display (dom st panel_loading),
   display (dom st panel_results)).

(** The elapsed seconds the try block passes to renderResults. *)
Definition elapsed_seconds (E : Engine) (w : world) (st : state) : num :=
  string_parseFloat E
    (number_toFixed1 E
       (number_div E
          (num_of_Z (now_end w - match startTime st with
                                 | Some t => t
                                 | None => 0
                                 end))
          (num_of_Z 1000))).

(** A string free of the three characters that escapeHtml replaces. *)
Definition plain (s : jsstring) : Prop :=
  Forall (fun c => c <> amp /\ c <> lt_sign /\ c <> gt_sign) s.

(** The entries [new] are page entries, and the one at position [k] has
    the ids that renderPages makes for the index [i + k]. *)
Fixpoint numbered (i : nat) (new : list node) : Prop :=
  match new with
  | [] => True
  | n :: rest =>
      (exists p, n = PageItem p /\
                 pi_bodyId p = lit "page-body-" ++ decimal (N.of_nat i) /\
                 pi_chevId p = lit "chev-" ++ decimal (N.of_nat i)) /\
      numbered (S i) rest
  end.

(** The entries [new] were made for the pages [l], the first of them at
    index [i]: the number and the word count of each are the strings of
    what its page gives, or of the defaults. *)
Fixpoint labelled (E : Engine) (i : nat) (l : list value) (new : list node) : Prop :=
  match l, new with
  | [], [] => True
  | page :: l', n :: new' =>
      (exists p, n = PageItem p /\
         (exists pn, get_prop E page (lit "page_number") = Normal pn /\
                     toStr E (or_const pn (VNum (num_of_nat (i + 1))))
                     = Normal (pi_num p)) /\
         (exists wc, get_prop E page (lit "word_count") = Normal wc /\
                     toStr E (or_const wc (VNum (num_of_Z 0)))
                     = Normal (pi_words p))) /\
      labelled E (S i) l' new'
  | _, _ => False
  end.


(** * Properties *)

Unset Implicit Arguments.

(** ** Reasoning about statements *)

Lemma keeps_ret (P : state -> Prop) A (a : A) : keeps P (ret a).
Proof. intros st H; exact H. Qed.

Lemma keeps_lift (P : state -> Prop) A (c : completion A) : keeps P (lift c).
Proof. intros st H; exact H. Qed.

Lemma keeps_gets (P : state -> Prop) A (f : state -> A) : keeps P (gets f).
Proof. intros st H; exact H. Qed.

Lemma keeps_modify (P : state -> Prop) (f : state -> state) :
  (forall st, P st -> P (f st)) -> keeps P (modify f).
Proof. intros Hf st H; apply Hf, H. Qed.

Lemma keeps_bind (P : state -> Prop) A B (m : M A) (k : A -> M B) :
  keeps P m -> (forall a, keeps P (k a)) -> keeps P (bind m k).
Proof.
  intros Hm Hk st H. unfold bind.
  specialize (Hm st H). destruct (m st) as [[a | e] st']; simpl in *.
  - apply Hk, Hm.
  - exact Hm.
Qed.

(** After a pure step the continuation runs only on the value it returned. *)
Lemma keeps_bind_lift (P : state -> Prop) A B (c : completion A) (k : A -> M B) :
  (forall a, c = Normal a -> keeps P (k a)) -> keeps P (bind (lift c) k).
Proof.
  intros Hk st H. unfold bind, lift.
  destruct c as [a | e]; simpl.
  - apply (Hk a eq_refl), H.
  - exact H.
Qed.

Lemma keeps_forEach_from (P : state -> Prop) A (f : A -> nat -> M unit) (l : list A) :
  (forall x i, keeps P (f x i)) -> forall i, keeps P (forEach_from i f l).
Proof.
  intros Hf. induction l as [| x rest IH]; intros i; simpl.
  - apply keeps_ret.
  - apply keeps_bind; [apply Hf | intros _; apply IH].
Qed.

(** A property of the element [id] alone is kept by writes to other elements. *)
Lemma keeps_on_other (Q : element -> Prop) (id j : elem_id) (f : element -> element) :
  j <> id -> keeps (fun st => Q (dom st id)) (on_element j f).
Proof.
  intros Hne st H. unfold on_element, modify, update; simpl.
  destruct (elem_id_eq_dec id j) as [Heq | _]; [congruence | exact H].
Qed.

Lemma bind_on_element A (id : elem_id) (f : element -> element) (k : unit -> M A)
    (st : state) :
  bind (on_element id f) k st = k tt (set_dom (update id f (dom st)) st).
Proof. reflexivity. Qed.

Lemma update_same (id : elem_id) (f : element -> element) (d : document) :
  update id f d id = f (d id).
Proof. unfold update. destruct (elem_id_eq_dec id id); congruence. Qed.

(** ** Escaping *)

Lemma replace_all_app (c : code_unit) (r a b : jsstring) :
  replace_all c r (a ++ b) = replace_all c r a ++ replace_all c r b.
Proof. apply flat_map_app. Qed.

Lemma replace_all_other (c x : code_unit) (r : jsstring) :
  N.eqb x c = false -> replace_all c r [x] = [x].
Proof. intros H. unfold replace_all; simpl. rewrite H. reflexivity. Qed.

Lemma escapeHtml_cons (c : code_unit) (s : jsstring) :
  escapeHtml (c :: s) = escape_unit c ++ escapeHtml s.
Proof.
  unfold escapeHtml.
  change (replace_all amp (lit "&amp;") (c :: s))
    with ((if N.eqb c amp then lit "&amp;" else [c])
            ++ replace_all amp (lit "&amp;") s).
  rewrite !replace_all_app. f_equal.
  unfold escape_unit.
  destruct (N.eqb c amp) eqn:Ha; [reflexivity |].
  destruct (N.eqb c lt_sign) eqn:Hl.
  - unfold replace_all at 2; simpl. rewrite Hl. reflexivity.
  - rewrite replace_all_other by exact Hl.
    destruct (N.eqb c gt_sign) eqn:Hg.
    + unfold replace_all; simpl. rewrite Hg. reflexivity.
    + apply replace_all_other; exact Hg.
Qed.

Lemma escapeHtml_flat_map (s : jsstring) :
  escapeHtml s = flat_map escape_unit s.
Proof.
  induction s as [| c s IH]; [reflexivity |].
  rewrite escapeHtml_cons, IH. reflexivity.
Qed.









(** ** Confidence tiers *)





(** The values the specification lists: 95, 90, 89.9, 70, 69.9 and 0. *)
Example confidence_tier_samples :
  map (fun q => (confColor (Fin q), confClass (Fin q)))
    [95 # 1; 90 # 1; 899 # 10; 70 # 1; 699 # 10; 0 # 1]%Q
  = map (fun t => (tier_color t, tier_class t))
      [good; good; warning; warning; critical; critical].
Proof. reflexivity. Qed.

(** A value that is not a number falls in the last branch of both. *)
Example confidence_tier_nan :
  confColor NaN = tier_color critical /\ confClass NaN = tier_class critical.
Proof. split; reflexivity. Qed.

(** ** The pending-file list *)

Lemma splice_one_beyond A (index : Z) (l : list A) :
  (Z.of_nat (length l) <= index)%Z -> splice index 1 l = l.
Proof.
  intros H. unfold splice.
  destruct (index <? 0)%Z eqn:Hneg; [lia |].
  replace (Z.min index (Z.of_nat (length l))) with (Z.of_nat (length l)) by lia.
  replace (Z.min (Z.max 1 0) (Z.of_nat (length l) - Z.of_nat (length l)))
    with 0%Z by lia.
  rewrite Z.add_0_r, Nat2Z.id.
  apply firstn_skipn.
Qed.

Lemma splice_one_inside A (i : nat) (l : list A) :
  i < length l -> splice (Z.of_nat i) 1 l = without i l.
Proof.
  intros H. unfold splice, without.
  destruct (Z.of_nat i <? 0)%Z eqn:Hneg; [lia |].
  replace (Z.min (Z.of_nat i) (Z.of_nat (length l))) with (Z.of_nat i) by lia.
  replace (Z.min (Z.max 1 0) (Z.of_nat (length l) - Z.of_nat i)) with 1%Z by lia.
  replace (Z.to_nat (Z.of_nat i + 1)) with (S i) by lia.
  rewrite Nat2Z.id. reflexivity.
Qed.

(** A negative index counts from the end of the array. *)
Lemma splice_one_negative A (index : Z) (l : list A) :
  (index < 0)%Z ->
  splice index 1 l
  = without (Z.to_nat (Z.max (Z.of_nat (length l) + index) 0)) l.
Proof.
  intros H. unfold splice, without.
  destruct (index <? 0)%Z eqn:Hneg; [| lia].
  destruct l as [| x l'].
  - simpl length. simpl Z.of_nat.
    replace (Z.max (0 + index) 0) with 0%Z by lia. reflexivity.
  - set (len := Z.of_nat (length (x :: l'))).
    assert (Hlen : (0 < len)%Z) by (unfold len; simpl length; lia).
    set (start := Z.max (len + index) 0).
    assert (Hstart : (0 <= start < len)%Z) by (unfold start; lia).
    replace (Z.min (Z.max 1 0) (len - start)) with 1%Z by lia.
    replace (Z.to_nat (start + 1)) with (S (Z.to_nat start)) by lia.
    reflexivity.
Qed.

Lemma without_length A (k : nat) (l : list A) :
  k < length l -> length (without k l) = length l - 1.
Proof.
  intros H. unfold without.
  rewrite length_app, firstn_length_le, length_skipn by lia. lia.
Qed.

Lemma without_before A (k j : nat) (l : list A) :
  j < k -> k < length l -> nth_error (without k l) j = nth_error l j.
Proof.
  intros Hj Hk. unfold without.
  rewrite nth_error_app1 by (rewrite firstn_length_le; lia).
  rewrite nth_error_firstn.
  destruct (Nat.ltb_spec j k); [reflexivity | lia].
Qed.

Lemma without_after A (k j : nat) (l : list A) :
  k <= j -> k < length l -> nth_error (without k l) j = nth_error l (S j).
Proof.
  intros Hj Hk. unfold without.
  rewrite nth_error_app2 by (rewrite firstn_length_le; lia).
  rewrite firstn_length_le by lia.
  rewrite nth_error_skipn. f_equal. lia.
Qed.

(** Rendering reads the list and writes the page only. *)
Lemma keeps_files_on_element (l : list File) (id : elem_id) (f : element -> element) :
  keeps (fun st => selectedFiles st = l) (on_element id f).
Proof. apply keeps_modify. intros st H; exact H. Qed.

Lemma renderFileList_files (E : Engine) (l : list File) :
  keeps (fun st => selectedFiles st = l) (renderFileList E).
Proof.
  unfold renderFileList.
  apply keeps_bind; [apply keeps_files_on_element | intros _].
  apply keeps_bind; [apply keeps_gets | intros files].
  destruct (Nat.eqb (length files) 0).
  - apply keeps_files_on_element.
  - apply keeps_bind; [apply keeps_files_on_element | intros _].
    apply keeps_forEach_from. intros x i. apply keeps_files_on_element.
Qed.

Lemma addFiles_files (E : Engine) (files : list File) (st : state) :
  selectedFiles (run (addFiles E files) st) = selectedFiles st ++ files.
Proof.
  unfold run, addFiles, bind at 1, modify.
  apply (renderFileList_files E (selectedFiles st ++ files)). reflexivity.
Qed.

Lemma removeFile_files (E : Engine) (index : Z) (st : state) :
  selectedFiles (run (removeFile E index) st) = splice index 1 (selectedFiles st).
Proof.
  unfold run, removeFile, bind at 1, modify.
  apply (renderFileList_files E (splice index 1 (selectedFiles st))).
  reflexivity.
Qed.

Lemma addBatches_files (E : Engine) (batches : list (list File)) (st : state) :
  selectedFiles (addBatches E batches st) = selectedFiles st ++ concat batches.
Proof.
  unfold addBatches. revert st.
  induction batches as [| files rest IH]; intros st; simpl.
  - symmetry; apply app_nil_r.
  - rewrite IH, addFiles_files, <- app_assoc. reflexivity.
Qed.

(** C7, as the code has it.  An index at or past the end of the pending list
    leaves the list as it is; a negative index counts from the end of the
    list, as [splice] does, and removes the entry it reaches. *)
Theorem removeFile_out_of_bounds (E : Engine) (st : state) (index : Z) :
  out_of_bounds index (selectedFiles st) ->
  selectedFiles (run (removeFile E index) st)
  = if (index <? 0)%Z
    then without
           (Z.to_nat (Z.max (Z.of_nat (length (selectedFiles st)) + index) 0))
           (selectedFiles st)
    else selectedFiles st.
Proof.
  intros Hout. rewrite removeFile_files.
  destruct (index <? 0)%Z eqn:Hneg.
  - apply splice_one_negative. lia.
  - apply splice_one_beyond. destruct Hout; lia.
Qed.

Lemma removeFile_out_of_bounds_witness :
  out_of_bounds 2 (selectedFiles two_pending) /\
  selectedFiles (run (removeFile SimpleEngine.engine 2) two_pending)
  = [scan_pdf; photo_png].
Proof.
  assert (H : out_of_bounds 2 (selectedFiles two_pending)).
  { right. vm_compute. discriminate. }
  split; [exact H |].
  exact (removeFile_out_of_bounds SimpleEngine.engine two_pending 2 H).
Defined.

(** C7, as stated, fails: [-1] is outside the positions of a list of two
    files, and [removeFile(-1)] removes the last of them. *)
Lemma removeFile_minus_one_removes :
  out_of_bounds (-1) (selectedFiles two_pending) /\
  selectedFiles (run (removeFile SimpleEngine.engine (-1)) two_pending)
  = [scan_pdf] /\
  selectedFiles (run (removeFile SimpleEngine.engine (-1)) two_pending)
  <> selectedFiles two_pending.
Proof.
  split; [left; reflexivity |].
  split; [reflexivity |].
  intros H. vm_compute in H. discriminate.
Qed.

(** C8.  After the files of [batches] have been added to an empty pending
    list, the list holds them in order; removing a valid position [i] leaves
    one entry fewer, namely the list without its entry [i]: the entries
    before [i] stay where they were and those after it move up by one. *)
Theorem remove_after_add (E : Engine) (batches : list (list File)) (st : state)
    (i : nat) :
  selectedFiles st = [] ->
  i < length (concat batches) ->
  let added := concat batches in
  let remaining :=
    selectedFiles (run (removeFile E (Z.of_nat i)) (addBatches E batches st)) in
  selectedFiles (addBatches E batches st) = added /\
  length remaining = length added - 1 /\
  remaining = without i added /\
  (forall j, j < i -> nth_error remaining j = nth_error added j) /\
  (forall j, i <= j -> nth_error remaining j = nth_error added (S j)).
Proof.
  intros Hempty Hi added remaining.
  assert (Hadd : selectedFiles (addBatches E batches st) = added).
  { rewrite addBatches_files, Hempty. reflexivity. }
  assert (Hrem : remaining = without i added).
  { unfold remaining. rewrite removeFile_files, Hadd.
    apply splice_one_inside. exact Hi. }
  split; [exact Hadd |].
  split; [rewrite Hrem; apply without_length; exact Hi |].
  split; [exact Hrem |].
  split; intros j Hj; rewrite Hrem.
  - apply without_before; assumption.
  - apply without_after; assumption.
Qed.

Lemma remove_after_add_witness :
  selectedFiles initial = [] /\
  1 < length (concat [[scan_pdf; photo_png]; [notes_pdf]]) /\
  selectedFiles
    (run (removeFile SimpleEngine.engine 1)
       (addBatches SimpleEngine.engine [[scan_pdf; photo_png]; [notes_pdf]] initial))
  = [scan_pdf; notes_pdf].
Proof.
  assert (H1 : selectedFiles initial = []) by reflexivity.
  assert (H2 : 1 < length (concat [[scan_pdf; photo_png]; [notes_pdf]])).
  { simpl. lia. }
  split; [exact H1 |]. split; [exact H2 |].
  exact (proj1 (proj2 (proj2
           (remove_after_add SimpleEngine.engine
              [[scan_pdf; photo_png]; [notes_pdf]] initial 1 H1 H2)))).
Defined.

(** ** The submission workflow *)

Lemma processFiles_started (E : Engine) (w : world) (st : state) :
  selectedFiles st <> [] ->
  processFiles E w st
  = try_catch_finally (attempt E w) report release (started w st).
Proof.
  intros Hne. unfold processFiles, bind at 1, gets.
  destruct (selectedFiles st) as [| f l] eqn:Hl; [contradiction |].
  reflexivity.
Qed.

Lemma caught (body : M unit) (st0 st1 : state) (e : js_error) :
  body st0 = (Throw e, st1) ->
  try_catch_finally body report release st0
  = (Normal tt, run release (run (report e) st1)).
Proof.
  intros H. unfold try_catch_finally. rewrite H. reflexivity.
Qed.

Lemma completed (body : M unit) (st0 st1 : state) :
  body st0 = (Normal tt, st1) ->
  try_catch_finally body report release st0 = (Normal tt, run release st1).
Proof.
  intros H. unfold try_catch_finally. rewrite H. reflexivity.
Qed.

Lemma attempt_rejected (E : Engine) (w : world) (e : js_error) (st : state) :
  reply w = Rejected e ->
  attempt E w st = (Throw e, add_request (upload (selectedFiles st)) st).
Proof.
  intros H. unfold attempt, bind, gets, fetch, modify. rewrite H. reflexivity.
Qed.

Lemma attempt_bad_status (E : Engine) (w : world) (status : N)
    (payload : json_result) (st : state) :
  reply w = Response status payload -> res_ok status = false ->
  attempt E w st
  = (Throw (rejection E status payload), add_request (upload (selectedFiles st)) st).
Proof.
  intros H Hok.
  unfold attempt, bind, gets, fetch, modify, res_json_or_empty. rewrite H.
  simpl. rewrite Hok. simpl.
  unfold rejection, prop, lift, new_Error, throw.
  destruct payload as [v | e0]; simpl.
  - destruct (get_prop E v (lit "detail")) as [d | e1]; [| reflexivity].
    match goal with
    | |- context [toStr E ?x] => destruct (toStr E x)
    end; reflexivity.
  - reflexivity.
Qed.


Lemma attempt_no_results (E : Engine) (w : world) (status : N) (v r : value)
    (st : state) :
  reply w = Response status (Parsed v) -> res_ok status = true ->
  get_prop E v (lit "results") = Normal r ->
  r = VUndef \/ r = VNull \/ r = VArr [] ->
  attempt E w st
  = (Throw (Error (lit "No OCR results returned from server")),
     add_request (upload (selectedFiles st)) st).
Proof.
  intros H Hok Hr Hempty.
  unfold attempt, bind, gets, fetch, modify, res_json. rewrite H.
  simpl. rewrite Hok. simpl.
  unfold prop, lift. rewrite Hr.
  destruct Hempty as [-> | [-> | ->]]; reflexivity.
Qed.


Lemma caught_result (body : M unit) (st0 st1 : state) (e : js_error) :
  body st0 = (Throw e, st1) ->
  currentResult (run (try_catch_finally body report release) st0)
  = currentResult st1.
Proof.
  intros H. unfold run. erewrite caught by exact H. reflexivity.
Qed.

Lemma processFiles_empty (E : Engine) (w : world) (st : state) :
  selectedFiles st = [] -> processFiles E w st = (Normal tt, st).
Proof.
  intros Hempty. unfold processFiles, bind at 1, gets.
  rewrite Hempty. reflexivity.
Qed.

(** C4.  With an empty pending list processFiles returns at once and leaves
    the whole state as it was: no request is issued, and the page, the
    pending list and the current result are unchanged. *)
Theorem submit_nothing (E : Engine) (w : world) (st : state) :
  selectedFiles st = [] ->
  processFiles E w st = (Normal tt, st) /\
  requests (run (processFiles E w) st) = requests st /\
  dom (run (processFiles E w) st) = dom st /\
  selectedFiles (run (processFiles E w) st) = selectedFiles st /\
  currentResult (run (processFiles E w) st) = currentResult st.
Proof.
  intros Hempty.
  pose proof (processFiles_empty E w st Hempty) as H.
  unfold run. rewrite H. repeat split.
Qed.

Lemma submit_nothing_witness :
  selectedFiles initial = [] /\
  requests (run (processFiles SimpleEngine.engine hello_reply) initial) = [].
Proof.
  assert (H : selectedFiles initial = []) by reflexivity.
  split; [exact H |].
  exact (proj1 (proj2 (submit_nothing SimpleEngine.engine hello_reply initial H))).
Defined.

(** C9.  A submission with files pending disables the trigger and shows the
    processing label while it runs; however the attempt ends, by success or
    by any error, processFiles returns normally with the trigger enabled and
    its default label back. *)
Theorem trigger_released (E : Engine) (w : world) (st : state) :
  selectedFiles st <> [] ->
  disabled (dom (started w st) process_btn) = true /\
  inner (dom (started w st) process_btn) = ProcessingLabel /\
  outcome (processFiles E w) st = Normal tt /\
  disabled (dom (run (processFiles E w) st) process_btn) = false /\
  inner (dom (run (processFiles E w) st) process_btn) = DefaultLabel.
Proof.
  intros Hne.
  split; [reflexivity |]. split; [reflexivity |].
  unfold outcome, run. rewrite (processFiles_started E w st Hne).
  destruct (attempt E w (started w st)) as [[[] | e] st1] eqn:Hbody.
  - erewrite completed by exact Hbody. repeat split.
  - erewrite caught by exact Hbody. repeat split.
Qed.

Lemma trigger_released_witness :
  selectedFiles two_pending <> [] /\
  disabled (dom (run (processFiles SimpleEngine.engine too_large) two_pending)
              process_btn) = false /\
  inner (dom (run (processFiles SimpleEngine.engine hello_reply) two_pending)
           process_btn) = DefaultLabel.
Proof.
  assert (H : selectedFiles two_pending <> []) by (vm_compute; discriminate).
  split; [exact H |]. split.
  - exact (proj1 (proj2 (proj2 (proj2
             (trigger_released SimpleEngine.engine too_large two_pending H))))).
  - exact (proj2 (proj2 (proj2 (proj2
             (trigger_released SimpleEngine.engine hello_reply two_pending H))))).
Defined.

(** C10.  When the request does not complete, when the status is not 2xx,
    or when the reply has no results or an empty array of them, the current
    result after processFiles is the one before it. *)
Theorem failure_keeps_result (E : Engine) (w : world) (st : state) :
  submission_failure E w ->
  currentResult (run (processFiles E w) st) = currentResult st.
Proof.
  intros Hfail.
  destruct (selectedFiles st) as [| f l] eqn:Hfiles.
  - unfold run. rewrite (processFiles_empty E w st Hfiles). reflexivity.
  - assert (Hne : selectedFiles st <> []) by (rewrite Hfiles; discriminate).
    unfold run at 1. rewrite (processFiles_started E w st Hne).
    fold (run (try_catch_finally (attempt E w) report release) (started w st)).
    destruct Hfail as [e Hr | status payload Hr Hok | status v r Hr Hok Hres Hempty].
    + erewrite caught_result by (apply attempt_rejected; exact Hr). reflexivity.
    + erewrite caught_result by (apply attempt_bad_status; eassumption).
      reflexivity.
    + erewrite caught_result by (eapply attempt_no_results; eassumption).
      reflexivity.
Qed.

Lemma failure_keeps_result_witness :
  submission_failure SimpleEngine.engine too_large /\
  currentResult hello_shown = hello_document /\
  currentResult (run (processFiles SimpleEngine.engine too_large) hello_shown)
  = hello_document.
Proof.
  assert (H : submission_failure SimpleEngine.engine too_large).
  { eapply status_failure; reflexivity. }
  split; [exact H |]. split; [reflexivity |].
  exact (failure_keeps_result SimpleEngine.engine too_large hello_shown H).
Defined.




Lemma rejection_unparsable (E : Engine) (status : N) (e : js_error) :
  rejection E status (Unparsable e) = Error (lit "HTTP " ++ decimal status).
Proof. reflexivity. Qed.

Lemma nonempty_truthy (d : jsstring) : d <> [] -> truthy (VStr d) = true.
Proof. destruct d; [contradiction | reflexivity]. Qed.






(** A body that is JSON [null]: the read of [detail], or of [results],
    fails, and the engine's message for it is what the user sees. *)
Example null_body_shown :
  let shown (w : world) :=
    text_of (dom (run (processFiles SimpleEngine.engine w) two_pending) toast_msg) in
  shown (replied (Response 500 (Parsed VNull)))
  = Some (lit "Error: Cannot read properties of null (reading 'detail')") /\
  shown (replied (Response 200 (Parsed VNull)))
  = Some (lit "Error: Cannot read properties of null (reading 'results')").
Proof. split; reflexivity. Qed.



(** ** The per-page breakdown *)

Lemma leb_length (n : nat) :
  num_leb (num_of_nat n) (num_of_Z 1) = Nat.leb n 1.
Proof.
  unfold num_leb, num_geb, num_of_nat, num_of_Z, Qle_bool, inject_Z; simpl.
  destruct (Nat.leb_spec n 1); [apply Z.leb_le | apply Z.leb_gt]; lia.
Qed.

Lemma renderPages_array (E : Engine) (l : list value) (st : state) :
  renderPages E (VArr l) st
  = if Nat.leb (length l) 1 then (Normal tt, show_section "none" st)
    else forEach (renderPage E) l (show_section "block" st).
Proof.
  unfold renderPages, prop. rewrite bind_on_element.
  change (truthy (VArr l)) with true. cbn [negb].
  change (get_prop E (VArr l) (lit "length"))
    with (@Normal value (VNum (num_of_nat (length l)))).
  unfold bind, lift, ret, toNumber. cbv beta iota. rewrite leb_length.
  destruct (Nat.leb (length l) 1); reflexivity.
Qed.

Lemma renderPages_missing (E : Engine) (pages : value) (st : state) :
  truthy pages = false ->
  renderPages E pages st = (Normal tt, show_section "none" st).
Proof.
  intros H. unfold renderPages. rewrite bind_on_element.
  unfold bind, ret. rewrite H. reflexivity.
Qed.

Lemma renderPage_other (E : Engine) (Q : element -> Prop) (id : elem_id)
    (page : value) (i : nat) :
  id <> pages_list -> keeps (fun st => Q (dom st id)) (renderPage E page i).
Proof.
  intros Hne. unfold renderPage, prop.
  repeat (apply keeps_bind_lift; intros ? ?).
  apply keeps_on_other. congruence.
Qed.

Lemma append_child_length (n : node) (e : element) :
  length (children (append_child n e)) = S (length (children e)).
Proof.
  unfold append_child, children. destruct (inner e); simpl; try reflexivity.
  rewrite length_app. simpl. lia.
Qed.

Lemma renderPage_adds (E : Engine) (page : value) (i : nat) (st : state) :
  fst (renderPage E page i st) = Normal tt ->
  length (children (dom (snd (renderPage E page i st)) pages_list))
  = S (length (children (dom st pages_list))).
Proof.
  unfold renderPage, prop, bind, lift.
  repeat match goal with
         | |- context [match ?c with Normal _ => _ | Throw _ => _ end] =>
             destruct c; simpl; try discriminate
         end.
  intros _. rewrite update_same. apply append_child_length.
Qed.

Lemma forEach_adds (E : Engine) (l : list value) :
  forall (i : nat) (st : state),
    fst (forEach_from i (renderPage E) l st) = Normal tt ->
    length (children (dom (snd (forEach_from i (renderPage E) l st)) pages_list))
    = length (children (dom st pages_list)) + length l.
Proof.
  induction l as [| page rest IH]; intros i st; simpl.
  - intros _. lia.
  - unfold bind.
    pose proof (renderPage_adds E page i st) as Hone.
    destruct (renderPage E page i st) as [[[] | e] st1]; simpl in *.
    + intros Hrest. rewrite (IH _ _ Hrest), (Hone eq_refl). lia.
    + discriminate.
Qed.

(** C5.  renderPages clears the page list, then shows the section exactly
    when [pages] is an array of more than one entry, whatever the entries
    hold: for a missing [pages] and for an array of no or one entry the
    section is hidden and the list stays empty; for a longer array the
    section is shown, and when every entry can be rendered the list holds
    one entry for each. *)
Theorem pages_section_visibility (E : Engine) (pages : value) (st : state) :
  let st' := run (renderPages E pages) st in
  (forall l, pages = VArr l ->
     (display (dom st' pages_section) = lit "block" <-> 1 < length l) /\
     (display (dom st' pages_section) = lit "none" <-> length l <= 1) /\
     (length l <= 1 -> children (dom st' pages_list) = []) /\
     (1 < length l -> outcome (renderPages E pages) st = Normal tt ->
      length (children (dom st' pages_list)) = length l)) /\
  (pages = VUndef \/ pages = VNull ->
   display (dom st' pages_section) = lit "none" /\
   children (dom st' pages_list) = []).
Proof.
  intros st'. split.
  - intros l ->. unfold st', outcome, run. rewrite renderPages_array.
    destruct (Nat.leb_spec (length l) 1) as [Hle | Hgt].
    + simpl snd.
      assert (Hd : display (dom (show_section "none" st) pages_section) = lit "none")
        by reflexivity.
      rewrite Hd.
      split; [split; [intros H; vm_compute in H; discriminate | lia] |].
      split; [split; [intros _; exact Hle | reflexivity] |].
      split; [reflexivity | lia].
    + assert (Hd : display
                     (dom (snd (forEach (renderPage E) l (show_section "block" st)))
                        pages_section) = lit "block").
      { apply (keeps_forEach_from
                 (fun s => display (dom s pages_section) = lit "block")).
        - intros x i.
          apply (renderPage_other E (fun e => display e = lit "block")).
          discriminate.
        - reflexivity. }
      rewrite Hd.
      split; [split; [intros _; exact Hgt | reflexivity] |].
      split; [split; [intros H; vm_compute in H; discriminate | lia] |].
      split; [lia |].
      intros _ Hok. unfold forEach in *.
      rewrite (forEach_adds E l 0 _ Hok). reflexivity.
  - intros Hmissing. unfold st', run.
    rewrite renderPages_missing by (destruct Hmissing; subst; reflexivity).
    split; reflexivity.
Qed.

Lemma pages_section_visibility_witness :
  display
    (dom (run (renderPages SimpleEngine.engine (VArr [page_of 1 95 1 "Hello"]))
            hello_shown) pages_section) = lit "none" /\
  children
    (dom (run (renderPages SimpleEngine.engine (VArr [page_of 1 95 1 "Hello"]))
            hello_shown) pages_list) = [].
Proof.
  pose proof (proj1 (pages_section_visibility SimpleEngine.engine
                       (VArr [page_of 1 95 1 "Hello"]) hello_shown)
                [page_of 1 95 1 "Hello"] eq_refl) as [_ [Hnone [Hlist _]]].
  split.
  - apply Hnone. simpl. lia.
  - apply Hlist. simpl. lia.
Defined.

(** The result of section 8 has two pages: the section is shown with two
    entries; with its second page dropped the section is hidden. *)
Example two_pages_shown :
  display (dom hello_shown pages_section) = lit "block" /\
  length (children (dom hello_shown pages_list)) = 2 /\
  display
    (dom (run (renderPages SimpleEngine.engine (VArr [page_of 1 95 1 "Hello"]))
            hello_shown) pages_section) = lit "none".
Proof. repeat split. Qed.

(** ** The document-type badge *)

Lemma bind_lift A B (c : completion A) (k : A -> M B) (st : state) :
  bind (lift c) k st
  = match c with
    | Normal a => k a st
    | Throw e => (Throw e, st)
    end.
Proof. unfold bind, lift. destruct c; reflexivity. Qed.

Lemma renderPages_other (E : Engine) (Q : element -> Prop) (id : elem_id)
    (pages : value) :
  id <> pages_list -> id <> pages_section ->
  keeps (fun st => Q (dom st id)) (renderPages E pages).
Proof.
  intros Hl Hs. unfold renderPages, prop.
  apply keeps_bind; [apply keeps_on_other; congruence | intros _].
  apply keeps_bind.
  - destruct (negb (truthy pages)); [apply keeps_ret |].
    repeat (apply keeps_bind_lift; intros ? ?). apply keeps_ret.
  - intros [|]; [apply keeps_on_other; congruence |].
    apply keeps_bind; [apply keeps_on_other; congruence | intros _].
    destruct pages; try apply keeps_lift.
    apply keeps_forEach_from. intros x i. apply renderPage_other, Hl.
Qed.

Lemma updateStats_other (E : Engine) (Q : element -> Prop) (id : elem_id)
    (pages : value) (conf elapsed : num) :
  id <> stat_processed -> id <> stat_success -> id <> stat_confidence ->
  id <> stat_time ->
  keeps (fun st => Q (dom st id)) (updateStats E pages conf elapsed).
Proof.
  intros H1 H2 H3 H4. unfold updateStats.
  apply keeps_bind_lift; intros ? ?.
  repeat (apply keeps_bind; [apply keeps_on_other; congruence | intros _]).
  apply keeps_on_other; congruence.
Qed.

Lemma bind_ret A B (a : A) (k : A -> M B) (st : state) :
  bind (ret a) k st = k a st.
Proof. reflexivity. Qed.

Lemma bind_bind A B C (m : M A) (f : A -> M B) (k : B -> M C) (st : state) :
  bind (bind m f) k st = bind m (fun a => bind (f a) k) st.
Proof. unfold bind. destruct (m st) as [[a | e] st1]; reflexivity. Qed.

(** One step of a run recorded in [H]. *)
Ltac run_step H :=
  match type of H with
  | context [bind (lift ?c) ?k ?st] =>
      rewrite (bind_lift _ _ c k st) in H; destruct c eqn:?
  | context [bind (on_element ?id ?f) ?k ?st] =>
      rewrite (bind_on_element _ id f k st) in H
  | context [bind (ret ?a) ?k ?st] =>
      rewrite (bind_ret _ _ a k st) in H
  | context [bind (bind ?m ?f) ?k ?st] =>
      rewrite (bind_bind _ _ _ m f k st) in H
  | context [bind (if ?b then _ else _) ?k ?st] =>
      destruct b eqn:?
  end.

(** The run recorded in [H] threw before it wrote the element at stake. *)
Ltac threw_early H :=
  injection H as <- <-; left; split; [discriminate | reflexivity].

Lemma renderResults_badge (E : Engine) (data : value) (elapsed : num)
    (st st' : state) (r : completion unit) :
  renderResults E data elapsed st = (r, st') ->
  (r <> Normal tt /\ inner (dom st' res_doc_badge) = inner (dom st res_doc_badge))
  \/ exists sc, get_prop E data (lit "is_scanned") = Normal sc /\
                inner (dom st' res_doc_badge) = docBadge sc.
Proof.
  intros H. unfold renderResults, prop in H.
  assert (Hrest :
    forall sc m st0,
      keeps (fun s => inner (dom s res_doc_badge) = docBadge sc) m ->
      bind (on_element res_doc_badge (set_inner (docBadge sc))) (fun _ => m) st0
      = (r, st') ->
      inner (dom st' res_doc_badge) = docBadge sc).
  { intros sc m st0 Hm Hrun. rewrite bind_on_element in Hrun.
    replace st' with (snd (m (set_dom
                        (update res_doc_badge (set_inner (docBadge sc)) (dom st0))
                        st0))) by (rewrite Hrun; reflexivity).
    apply Hm. reflexivity. }
  repeat (lazymatch type of H with
          | context [bind (on_element res_doc_badge _) _ _] => fail
          | _ => idtac
          end;
          run_step H; try threw_early H).
  all: right; eexists; split; [reflexivity |].
  all: eapply Hrest; [| exact H].
  all: unfold prop.
  all: repeat (apply keeps_bind_lift; intros ? ?).
  all: apply keeps_bind;
    [apply (keeps_on_other (fun e => inner e = docBadge _)); discriminate
    | intros _].
  all: apply keeps_bind;
    [apply (updateStats_other E (fun e => inner e = docBadge _)); discriminate
    | intros _].
  all: apply keeps_bind_lift; intros ? ?.
  all: apply (renderPages_other E (fun e => inner e = docBadge _)); discriminate.
Qed.

(** C6, as the code has it.  When renderResults completes, the badge
    depends on the [is_scanned] property of the payload alone: no badge
    when the property is absent, the scanned label when its value is truthy,
    and the text label for every other value that is present, [false] and
    also [null], [0] or an empty string. *)
Theorem doc_badge (E : Engine) (data : value) (elapsed : num) (st : state) :
  outcome (renderResults E data elapsed) st = Normal tt ->
  exists sc,
    get_prop E data (lit "is_scanned") = Normal sc /\
    let shown := inner (dom (run (renderResults E data elapsed) st) res_doc_badge) in
    shown = match sc with
            | VUndef => Nodes []
            | _ => if truthy sc then ScannedBadge else TextBadge
            end /\
    (sc = VUndef -> badge_label shown = None) /\
    (sc = VBool true ->
     badge_label shown
     = Some (lit "Scanned document " ++ [em_dash] ++ lit " OCR applied")) /\
    (sc = VBool false \/ sc = VNull ->
     badge_label shown
     = Some (lit "Text-based PDF " ++ [em_dash] ++ lit " Direct extraction")).
Proof.
  intros Hok. unfold outcome, run in *.
  destruct (renderResults E data elapsed st) as [r st'] eqn:Hrun.
  simpl in Hok. subst r.
  destruct (renderResults_badge E data elapsed st st' (Normal tt) Hrun)
    as [[Hthrew _] | [sc [Hsc Hbadge]]]; [congruence |].
  exists sc. split; [exact Hsc |]. simpl snd. cbv zeta.
  rewrite Hbadge.
  split; [destruct sc; reflexivity |].
  split; [intros ->; reflexivity |].
  split; [intros ->; reflexivity |].
  intros [-> | ->]; reflexivity.
Qed.

Lemma doc_badge_witness :
  outcome (renderResults SimpleEngine.engine hello_document (num_of_Z 2)) initial
  = Normal tt /\
  inner (dom (run (renderResults SimpleEngine.engine hello_document (num_of_Z 2))
                initial) res_doc_badge)
  = ScannedBadge.
Proof.
  assert (H : outcome (renderResults SimpleEngine.engine hello_document
                         (num_of_Z 2)) initial = Normal tt) by reflexivity.
  split; [exact H |].
  destruct (doc_badge SimpleEngine.engine hello_document (num_of_Z 2) initial H)
    as [sc [Hsc [Hshown _]]].
  rewrite Hshown.
  injection Hsc as <-. reflexivity.
Defined.

(** C6, as stated, fails: for a payload whose [is_scanned] is [null], which
    is not a boolean, the badge is rendered, with the text label. *)
Lemma null_flag_badge :
  let st' :=
    run (renderResults SimpleEngine.engine null_flag_document (num_of_Z 2))
      initial in
  get_prop SimpleEngine.engine null_flag_document (lit "is_scanned") = Normal VNull /\
  ~ explicit_boolean VNull /\
  badge_rendered st' /\
  inner (dom st' res_doc_badge) = TextBadge.
Proof.
  intros st'.
  split; [reflexivity |].
  split; [intros [b Hb]; discriminate |].
  split; [| reflexivity].
  unfold badge_rendered. vm_compute. discriminate.
Qed.

(** ** The example of the specification

    The reply of section 8, submitted with two files pending: 2 pages, 1
    word, 5 characters, confidence 92.5% in the good tier, the scanned
    badge, the results panel, and the page section shown with two
    entries. *)
Example hello_rendered :
  map (fun id => text_of (dom hello_shown id))
    [res_pages; res_words; res_chars; res_conf; res_text]
  = map (fun s => Some (lit s)) ["2"; "1"; "5"; "92.5%"; "Hello"]%string /\
  className (dom hello_shown res_conf) = lit "meta-value " ++ tier_color good /\
  inner (dom hello_shown res_doc_badge) = ScannedBadge /\
  display (dom hello_shown panel_results) = lit "block" /\
  display (dom hello_shown pages_section) = lit "block" /\
  map (fun n => match n with
                | PageItem p => (pi_num p, pi_confClass p, pi_text p)
                | FileItem _ => ([], [], [])
                end) (children (dom hello_shown pages_list))
  = [(lit "1", tier_class good, lit "Hello");
     (lit "2", tier_class good, lit "No text")] /\
  currentResult hello_shown = hello_document /\
  length (requests hello_shown) = 1.
Proof. repeat split. Qed.

(** * Further properties *)

(** ** More reasoning about statements *)

Lemma str_eqb_eq (a b : jsstring) : str_eqb a b = true <-> a = b.
Proof.
  revert b. induction a as [| x a IH]; intros [| y b]; simpl;
    try (split; [discriminate | discriminate]); [split; reflexivity |].
  rewrite andb_true_iff, N.eqb_eq, IH.
  split; [intros [-> ->]; reflexivity | intros H; injection H; auto].
Qed.

Lemma str_eqb_refl (a : jsstring) : str_eqb a a = true.
Proof. apply str_eqb_eq. reflexivity. Qed.

Lemma keeps_if (P : state -> Prop) A (b : bool) (m1 m2 : M A) :
  keeps P m1 -> keeps P m2 -> keeps P (if b then m1 else m2).
Proof. destruct b; auto. Qed.

Lemma keeps_try (P : state -> Prop) A (body : M A) (handler : js_error -> M A)
    (final : M unit) :
  keeps P body -> (forall e, keeps P (handler e)) -> keeps P final ->
  keeps P (try_catch_finally body handler final).
Proof.
  intros Hb Hh Hf st H. unfold try_catch_finally.
  specialize (Hb st H). destruct (body st) as [[a | e] st1]; simpl in Hb.
  - specialize (Hf st1 Hb). destruct (final st1) as [[u | e] st2]; exact Hf.
  - specialize (Hh e st1 Hb). destruct (handler e st1) as [r st2]; simpl in Hh.
    specialize (Hf st2 Hh). destruct (final st2) as [[u | e'] st3]; exact Hf.
Qed.

Lemma blind_on_element (P : state -> Prop) (id : elem_id) (f : element -> element) :
  render_blind P -> keeps P (on_element id f).
Proof. intros HP. apply keeps_modify. intros st H. apply (HP st H). Qed.

Lemma blind_add_timer (P : state -> Prop) (n : N) :
  render_blind P -> keeps P (modify (add_timer n)).
Proof. intros HP. apply keeps_modify. intros st H. apply (HP st H). Qed.

Lemma page_blind_on_element (P : state -> Prop) (id : elem_id)
    (f : element -> element) :
  page_blind P -> keeps P (on_element id f).
Proof. intros HP. apply keeps_modify. intros st H. apply (HP st _ H). Qed.

(** Discharges [keeps P m] for an [m] made of reads, conversions and the
    writes that [write] covers. *)
Ltac frame write :=
  repeat first
    [ apply keeps_ret
    | apply keeps_lift
    | apply keeps_gets
    | write
    | apply keeps_bind_lift; intros ? ?
    | apply keeps_if
    | apply keeps_forEach_from; intros ? ?
    | match goal with
      | |- keeps _ (match ?v with VArr _ => _ | _ => _ end) => destruct v
      end
    | apply keeps_bind; [| intros ?] ].

Ltac blind HP :=
  frame ltac:(first [ apply (blind_on_element _ _ _ HP)
                    | apply (blind_add_timer _ _ HP) ]).

Ltac page_only HP := frame ltac:(apply (page_blind_on_element _ _ _ HP)).

Lemma blind_showPanel (P : state -> Prop) (panel : jsstring) :
  render_blind P -> keeps P (showPanel panel).
Proof. intros HP. unfold showPanel. blind HP. Qed.

Lemma blind_showToast (P : state -> Prop) (msg : jsstring) :
  render_blind P -> keeps P (showToast msg).
Proof. intros HP. unfold showToast. blind HP. Qed.

Lemma blind_renderPages (E : Engine) (P : state -> Prop) (pages : value) :
  render_blind P -> keeps P (renderPages E pages).
Proof. intros HP. unfold renderPages, renderPage, prop. blind HP. Qed.

Lemma blind_renderResults (E : Engine) (P : state -> Prop) (data : value)
    (elapsed : num) :
  render_blind P -> keeps P (renderResults E data elapsed).
Proof.
  intros HP. unfold renderResults, updateStats, prop.
  frame ltac:(first [ apply (blind_renderPages _ _ _ HP)
                    | apply (blind_on_element _ _ _ HP) ]).
Qed.

Lemma blind_renderFileList (E : Engine) (P : state -> Prop) :
  render_blind P -> keeps P (renderFileList E).
Proof. intros HP. unfold renderFileList. blind HP. Qed.

Lemma blind_report (P : state -> Prop) (e : js_error) :
  render_blind P -> keeps P (report e).
Proof. intros HP. unfold report, showToast, showPanel. blind HP. Qed.

Lemma blind_release (P : state -> Prop) : render_blind P -> keeps P release.
Proof. intros HP. unfold release. blind HP. Qed.

Lemma page_only_renderFileList (E : Engine) (P : state -> Prop) :
  page_blind P -> keeps P (renderFileList E).
Proof. intros HP. unfold renderFileList. page_only HP. Qed.

Lemma page_only_showPanel (P : state -> Prop) (panel : jsstring) :
  page_blind P -> keeps P (showPanel panel).
Proof. intros HP. unfold showPanel. page_only HP. Qed.

Lemma page_only_renderPages (E : Engine) (P : state -> Prop) (pages : value) :
  page_blind P -> keeps P (renderPages E pages).
Proof. intros HP. unfold renderPages, renderPage, prop. page_only HP. Qed.

Lemma page_only_renderResults (E : Engine) (P : state -> Prop) (data : value)
    (elapsed : num) :
  page_blind P -> keeps P (renderResults E data elapsed).
Proof.
  intros HP. unfold renderResults, updateStats, prop.
  frame ltac:(first [ apply (page_only_renderPages _ _ _ HP)
                    | apply (page_blind_on_element _ _ _ HP) ]).
Qed.

(** A statement that writes the page only leaves the rest of the state. *)
Lemma page_only_state A (m : M A) (st : state) :
  (forall P, page_blind P -> keeps P m) ->
  exists d, snd (m st) = set_dom d st.
Proof.
  intros Hm.
  apply (Hm (fun s => exists d, s = set_dom d st)).
  - intros s d [d' ->]. exists d. reflexivity.
  - exists (dom st). destruct st; reflexivity.
Qed.

Lemma returns_bind (Q : state -> Prop) A B (m : M A) (k : A -> M B) :
  (forall a, returns Q (k a)) -> returns Q (bind m k).
Proof.
  intros Hk st b st' H. unfold bind in H.
  destruct (m st) as [[a | e] st1]; [| discriminate].
  exact (Hk a st1 b st' H).
Qed.

(** ** The file list on the page *)

Lemma append_child_nodes (n : node) (l : list node) (e : element) :
  append_child n (set_inner (Nodes l) e) = set_inner (Nodes (l ++ [n])) e.
Proof. reflexivity. Qed.

Lemma render_entries (E : Engine) (l : list File) :
  forall (i : nat) (st : state) (acc : list node) (e0 : element),
    dom st file_list = set_inner (Nodes acc) e0 ->
    let st' :=
      snd (forEach_from i
             (fun file i =>
                on_element file_list
                  (append_child
                     (FileItem {| fi_name := name file;
                                  fi_size := formatSize E (size file);
                                  fi_index := i |}))) l st) in
    dom st' file_list = set_inner (Nodes (acc ++ file_entries E i l)) e0 /\
    (forall id, id <> file_list -> dom st' id = dom st id).
Proof.
  induction l as [| file rest IH]; intros i st acc e0 H; simpl.
  - rewrite app_nil_r. split; [exact H | reflexivity].
  - rewrite bind_on_element.
    match goal with
    | |- context [forEach_from (S i) ?f rest ?s] =>
        destruct (IH (S i) s
                    (acc ++ [FileItem {| fi_name := name file;
                                         fi_size := formatSize E (size file);
                                         fi_index := i |}]) e0)
          as [Hlist Hother]
    end.
    + simpl. rewrite update_same, H. apply append_child_nodes.
    + split.
      * rewrite Hlist, <- app_assoc. reflexivity.
      * intros id Hid. rewrite (Hother id Hid). simpl.
        unfold update. destruct (elem_id_eq_dec id file_list); congruence.
Qed.

(** What renderFileList leaves on the page, element by element. *)
Lemma renderFileList_dom (E : Engine) (st : state) (id : elem_id) :
  dom (run (renderFileList E) st) id
  = if elem_id_eq_dec id file_list
    then set_inner (Nodes (file_entries E 0 (selectedFiles st))) (dom st id)
    else if elem_id_eq_dec id process_btn_wrap
    then set_display
           (if Nat.eqb (length (selectedFiles st)) 0 then lit "none" else lit "block")
           (dom st id)
    else dom st id.
Proof.
  unfold run, renderFileList. rewrite bind_on_element.
  unfold bind at 1, gets. cbv beta iota. cbn [selectedFiles set_dom].
  destruct (Nat.eqb (length (selectedFiles st)) 0) eqn:Hlen.
  - assert (Hnil : selectedFiles st = [])
      by (destruct (selectedFiles st); [reflexivity | discriminate]).
    rewrite Hnil. simpl. unfold update.
    destruct (elem_id_eq_dec id file_list) as [-> | Hl]; [reflexivity |].
    destruct (elem_id_eq_dec id process_btn_wrap) as [-> | Hw]; reflexivity.
  - rewrite bind_on_element. unfold forEach.
    match goal with
    | |- context [forEach_from 0 ?f ?l ?s] =>
        destruct (render_entries E l 0 s [] (dom st file_list)) as [Hlist Hother]
    end.
    + reflexivity.
    + destruct (elem_id_eq_dec id file_list) as [-> | Hl]; [exact Hlist |].
      rewrite (Hother id Hl). simpl. unfold update.
      destruct (elem_id_eq_dec id process_btn_wrap) as [-> | Hw]; [reflexivity |].
      destruct (elem_id_eq_dec id file_list); [contradiction | reflexivity].
Qed.

(** X1.  After renderFileList, and so after every addFiles and every
    removeFile, the page shows the pending list: the file list holds one
    entry per pending file, in order, each with the file's name, its
    formatted size and its position, and the process button is displayed
    exactly when the list is not empty. *)
Theorem file_list_in_sync (E : Engine) (st : state) (files : list File)
    (index : Z) :
  shows_pending E (run (renderFileList E) st) /\
  shows_pending E (run (addFiles E files) st) /\
  shows_pending E (run (removeFile E index) st).
Proof.
  assert (Hsync : forall s, shows_pending E (run (renderFileList E) s)).
  { intros s. unfold shows_pending.
    rewrite !renderFileList_dom.
    destruct (elem_id_eq_dec file_list file_list) as [_ | Hne]; [| congruence].
    destruct (elem_id_eq_dec process_btn_wrap file_list) as [Heq | _];
      [discriminate |].
    destruct (elem_id_eq_dec process_btn_wrap process_btn_wrap) as [_ | Hne];
      [| congruence].
    assert (Hfiles : selectedFiles (run (renderFileList E) s) = selectedFiles s).
    { apply (renderFileList_files E (selectedFiles s)). reflexivity. }
    rewrite Hfiles. split; reflexivity. }
  split; [apply Hsync |].
  split; [apply (Hsync (set_selectedFiles (selectedFiles st ++ files) st)) |].
  apply (Hsync (set_selectedFiles (splice index 1 (selectedFiles st)) st)).
Qed.

(** The entry at position [k] of a rendering is that of the file at
    position [k]. *)
Lemma file_entries_nth (E : Engine) (l : list File) :
  forall (i k : nat) (f : file_item),
    nth_error (file_entries E i l) k = Some (FileItem f) ->
    exists file,
      nth_error l k = Some file /\
      fi_name f = name file /\ fi_index f = i + k.
Proof.
  induction l as [| file rest IH]; intros i k f H.
  - destruct k; discriminate.
  - destruct k as [| k]; simpl in H.
    + injection H as <-. exists file. simpl. repeat split. lia.
    + destruct (IH (S i) k f H) as [file' [Hn [Hname Hidx]]].
      exists file'. simpl. repeat split; [exact Hn | exact Hname | lia].
Qed.

(** X2.  On a page that shows the pending list, the remove button of the
    entry at position [k] carries the index [k]: pressing it removes the
    file whose name the entry shows and leaves the others in order. *)
Theorem remove_button (E : Engine) (st : state) (k : nat) (f : file_item) :
  shows_pending E st ->
  nth_error (children (dom st file_list)) k = Some (FileItem f) ->
  exists file,
    nth_error (selectedFiles st) k = Some file /\
    fi_name f = name file /\
    selectedFiles (run (removeFile E (Z.of_nat (fi_index f))) st)
    = without k (selectedFiles st).
Proof.
  intros [Hlist _] Hk. rewrite Hlist in Hk.
  destruct (file_entries_nth E (selectedFiles st) 0 k f Hk)
    as [file [Hn [Hname Hidx]]].
  exists file. split; [exact Hn |]. split; [exact Hname |].
  rewrite removeFile_files, Hidx. simpl.
  apply splice_one_inside. apply nth_error_Some. congruence.
Qed.

Lemma remove_button_witness :
  shows_pending SimpleEngine.engine two_pending /\
  nth_error (children (dom two_pending file_list)) 1
  = Some (FileItem {| fi_name := lit "photo.png"; fi_size := lit "512 B";
                      fi_index := 1 |}) /\
  selectedFiles (run (removeFile SimpleEngine.engine 1) two_pending) = [scan_pdf].
Proof.
  assert (H1 : shows_pending SimpleEngine.engine two_pending).
  { split; reflexivity. }
  assert (H2 : nth_error (children (dom two_pending file_list)) 1
               = Some (FileItem {| fi_name := lit "photo.png";
                                   fi_size := lit "512 B"; fi_index := 1 |})).
  { reflexivity. }
  split; [exact H1 |]. split; [exact H2 |].
  destruct (remove_button SimpleEngine.engine two_pending 1 _ H1 H2)
    as [file [_ [_ Hrem]]].
  exact Hrem.
Defined.

Lemma renderFileList_rest (E : Engine) (st : state) :
  let st' := run (renderFileList E) st in
  selectedFiles st' = selectedFiles st /\
  currentResult st' = currentResult st /\
  startTime st' = startTime st /\
  requests st' = requests st /\
  timers st' = timers st.
Proof.
  destruct (page_only_state _ (renderFileList E) st
              (fun P HP => page_only_renderFileList E P HP)) as [d Hd].
  unfold run. simpl. rewrite Hd. repeat split.
Qed.

(** X3.  Adding two batches one after the other leaves the same state as
    adding their concatenation at once. *)
Theorem addFiles_twice (E : Engine) (a b : list File) (st : state) :
  same_state (run (addFiles E b) (run (addFiles E a) st))
    (run (addFiles E (a ++ b)) st).
Proof.
  assert (Hadd : forall fs s,
             run (addFiles E fs) s
             = run (renderFileList E)
                 (set_selectedFiles (selectedFiles s ++ fs) s))
    by reflexivity.
  rewrite (Hadd b), (Hadd a), (Hadd (a ++ b)).
  set (s1 := set_selectedFiles (selectedFiles st ++ a) st).
  set (s12 := set_selectedFiles (selectedFiles st ++ a ++ b) st).
  destruct (renderFileList_rest E s1) as [F1 [C1 [T1 [R1 M1]]]].
  set (s2 := set_selectedFiles
               (selectedFiles (run (renderFileList E) s1) ++ b)
               (run (renderFileList E) s1)).
  destruct (renderFileList_rest E s2) as [F2 [C2 [T2 [R2 M2]]]].
  destruct (renderFileList_rest E s12) as [F3 [C3 [T3 [R3 M3]]]].
  assert (Hfiles : selectedFiles s2 = selectedFiles s12).
  { unfold s2, s12. simpl. rewrite F1. unfold s1. simpl.
    symmetry. apply app_assoc. }
  unfold same_state.
  rewrite F2, C2, T2, R2, M2, F3, C3, T3, R3, M3.
  split; [exact Hfiles |].
  split; [unfold s2; simpl; rewrite C1; reflexivity |].
  split; [unfold s2; simpl; rewrite T1; reflexivity |].
  split; [| split; [unfold s2; simpl; rewrite R1; reflexivity
                   | unfold s2; simpl; rewrite M1; reflexivity]].
  intros id. rewrite !renderFileList_dom, Hfiles.
  assert (Hdom : dom s2 id = dom (run (renderFileList E) s1) id) by reflexivity.
  rewrite Hdom, renderFileList_dom.
  assert (Hdom1 : dom s1 id = dom st id) by reflexivity.
  assert (Hdom12 : dom s12 id = dom st id) by reflexivity.
  rewrite Hdom1, Hdom12.
  destruct (elem_id_eq_dec id file_list); [reflexivity |].
  destruct (elem_id_eq_dec id process_btn_wrap); reflexivity.
Qed.

(** ** The panels *)

Lemma lit_differ (a b : jsstring) :
  str_eqb a b = false -> a <> b.
Proof. intros H Heq. apply str_eqb_eq in Heq. congruence. Qed.

(** X4.  After showPanel a panel is displayed only if it is the one
    named: at most one of the three panels is displayed, none for any other
    name, and no other element is written. *)
Theorem one_panel (panel : jsstring) (st : state) :
  let st' := run (showPanel panel) st in
  (display (dom st' panel_empty) <> lit "none" <-> panel = lit "empty") /\
  (display (dom st' panel_loading) <> lit "none" <-> panel = lit "loading") /\
  (display (dom st' panel_results) <> lit "none" <-> panel = lit "results") /\
  (forall id, id <> panel_empty -> id <> panel_loading -> id <> panel_results ->
              dom st' id = dom st id).
Proof.
  intros st'. unfold st', run, showPanel.
  rewrite !bind_on_element.
  destruct (str_eqb panel (lit "empty")) eqn:He;
    destruct (str_eqb panel (lit "loading")) eqn:Hl;
    destruct (str_eqb panel (lit "results")) eqn:Hr;
    try (apply str_eqb_eq in He); try (apply str_eqb_eq in Hl);
    try (apply str_eqb_eq in Hr); subst; try discriminate;
    try (apply lit_differ in He); try (apply lit_differ in Hl);
    try (apply lit_differ in Hr);
    (split; [| split; [| split]]);
    try (split; [intros H; try reflexivity; exfalso; apply H; reflexivity
                | intros H; try contradiction; vm_compute; discriminate]).
  all: intros id H1 H2 H3; simpl; unfold update;
    repeat match goal with
           | |- context [elem_id_eq_dec id ?j] =>
               destruct (elem_id_eq_dec id j); [contradiction |]
           end; reflexivity.
Qed.

(** ** More on the submission workflow *)

Lemma keeps_throw (P : state -> Prop) A (e : js_error) : keeps P (@throw A e).
Proof. intros st H; exact H. Qed.

Lemma bind_gets A B (f : state -> A) (k : A -> M B) (st : state) :
  bind (gets f) k st = k (f st) st.
Proof. reflexivity. Qed.

Lemma bind_modify A (f : state -> state) (k : unit -> M A) (st : state) :
  bind (modify f) k st = k tt (f st).
Proof. reflexivity. Qed.

(** Discharges [keeps P m] for a [P] that the setters [m] uses leave as
    it is, by computation. *)
Ltac untouched :=
  repeat first
    [ apply keeps_ret
    | apply keeps_lift
    | apply keeps_gets
    | apply keeps_throw
    | apply keeps_modify; intros ? ?; assumption
    | apply keeps_bind_lift; intros ? ?
    | apply keeps_if
    | apply keeps_forEach_from; intros ? ?
    | match goal with
      | |- keeps _ (match ?v with _ => _ end) => destruct v
      end
    | apply keeps_bind; [| intros ?] ].

(** The try block issues its request first; nothing after that touches the
    request log or the pending list. *)
Lemma attempt_request (E : Engine) (w : world) (st : state) :
  requests (snd (attempt E w st)) = requests st ++ [upload (selectedFiles st)] /\
  selectedFiles (snd (attempt E w st)) = selectedFiles st.
Proof.
  unfold attempt. rewrite bind_gets. unfold fetch.
  rewrite bind_bind, bind_modify.
  match goal with
  | |- context [snd (?m (add_request ?r st))] =>
      assert (Hk : keeps (fun s => requests s = requests st ++ [r] /\
                                   selectedFiles s = selectedFiles st) m)
  end.
  { unfold res_json_or_empty, res_json, renderResults, updateStats,
      renderPages, renderPage, showPanel, prop.
    untouched. }
  apply (Hk (add_request (upload (selectedFiles st)) st)). split; reflexivity.
Qed.

Lemma map_const_repeat A B (b : B) (l : list A) :
  map (fun _ => b) l = repeat b (length l).
Proof. induction l as [| x l IH]; simpl; [| rewrite IH]; reflexivity. Qed.

(** X5.  A submission with files pending issues exactly one request,
    whatever the reply: a POST to the process endpoint with one part per
    pending file, in order, each under the field name [files].  The pending
    list is the same afterwards. *)
Theorem one_request (E : Engine) (w : world) (st : state) :
  selectedFiles st <> [] ->
  let st' := run (processFiles E w) st in
  selectedFiles st' = selectedFiles st /\
  exists r,
    requests st' = requests st ++ [r] /\
    url r = lit "http://localhost:8000/ocr/process" /\
    method r = lit "POST" /\
    map snd (body r) = selectedFiles st /\
    map fst (body r) = repeat (lit "files") (length (selectedFiles st)).
Proof.
  intros Hne st'.
  assert (Hrun : requests st' = requests st ++ [upload (selectedFiles st)] /\
                 selectedFiles st' = selectedFiles st).
  { unfold st', run. rewrite (processFiles_started E w st Hne).
    unfold try_catch_finally.
    destruct (attempt_request E w (started w st)) as [Hreq Hfiles].
    destruct (attempt E w (started w st)) as [[[] | e] st1]; simpl in *.
    - split; assumption.
    - split; assumption. }
  destruct Hrun as [Hreq Hfiles].
  split; [exact Hfiles |].
  exists (upload (selectedFiles st)).
  split; [exact Hreq |]. split; [reflexivity |]. split; [reflexivity |].
  unfold upload; simpl. rewrite !map_map; simpl. split.
  - apply map_id.
  - apply map_const_repeat.
Qed.

Lemma one_request_witness :
  selectedFiles two_pending <> [] /\
  map (fun r => map (fun part => name (snd part)) (body r))
    (requests (run (processFiles SimpleEngine.engine too_large) two_pending))
  = [[lit "scan.pdf"; lit "photo.png"]].
Proof.
  assert (H : selectedFiles two_pending <> []) by (vm_compute; discriminate).
  split; [exact H |].
  destruct (one_request SimpleEngine.engine too_large two_pending H)
    as [_ [r [Hreq [_ [_ [Hbody _]]]]]].
  rewrite Hreq. simpl. rewrite <- map_map, Hbody. reflexivity.
Defined.

Lemma returns_showPanel (panel : jsstring) :
  returns (fun s => exists s0, s = run (showPanel panel) s0) (showPanel panel).
Proof.
  intros st a st' H. exists st. unfold run. rewrite H. reflexivity.
Qed.

(** When the try block returns, its last statement was [showPanel('results')]. *)
Lemma attempt_returns (E : Engine) (w : world) :
  returns (fun s => panels s = (lit "none", lit "none", lit "block"))
    (attempt E w).
Proof.
  assert (Hlast : returns
                    (fun s => panels s = (lit "none", lit "none", lit "block"))
                    (showPanel (lit "results"))).
  { intros st a st' H.
    destruct (returns_showPanel (lit "results") st a st' H) as [s0 ->].
    reflexivity. }
  unfold attempt.
  repeat (cbv zeta;
          match goal with
          | |- returns _ (showPanel _) => fail 1
          | |- returns _ (bind _ _) => apply returns_bind; intros ?
          end).
  exact Hlast.
Qed.

(** X6.  While the request of a submission is out, the loading panel is
    the one displayed.  When processFiles is over the loading panel is
    hidden, and either the results panel alone is displayed, or the empty
    panel alone is displayed with the notification shown, reading [Error: ]
    and a message, and one timer of 2500 ms set for it. *)
Theorem submission_ends (E : Engine) (w : world) (st : state) :
  selectedFiles st <> [] ->
  let st' := run (processFiles E w) st in
  panels (started w st) = (lit "none", lit "block", lit "none") /\
  (panels st' = (lit "none", lit "none", lit "block") \/
   (panels st' = (lit "flex", lit "none", lit "none") /\
    shown (dom st' toast) = true /\
    exists e, text_of (dom st' toast_msg) = Some (lit "Error: " ++ message e) /\
              timers st' = timers st ++ [2500%N])).
Proof.
  intros Hne st'. split; [reflexivity |].
  unfold st', run. rewrite (processFiles_started E w st Hne).
  destruct (attempt E w (started w st)) as [[[] | e] st1] eqn:Hbody.
  - left. erewrite completed by exact Hbody.
    apply (attempt_returns E w _ _ _ Hbody).
  - right. erewrite caught by exact Hbody.
    split; [reflexivity |]. split; [reflexivity |].
    exists e. split; [reflexivity |].
    assert (Ht : timers st1 = timers st).
    { replace st1 with (snd (attempt E w (started w st)))
        by (rewrite Hbody; reflexivity).
      assert (Hk : keeps (fun s => timers s = timers st) (attempt E w)).
      { unfold attempt, fetch, res_json_or_empty, res_json, renderResults,
          updateStats, renderPages, renderPage, showPanel, prop.
        untouched. }
      apply Hk. reflexivity. }
    simpl. rewrite Ht. reflexivity.
Qed.

Lemma submission_ends_witness :
  selectedFiles two_pending <> [] /\
  panels (run (processFiles SimpleEngine.engine hello_reply) two_pending)
  = (lit "none", lit "none", lit "block") /\
  panels (run (processFiles SimpleEngine.engine too_large) two_pending)
  = (lit "flex", lit "none", lit "none").
Proof.
  assert (H : selectedFiles two_pending <> []) by (vm_compute; discriminate).
  split; [exact H |]. split.
  - destruct (proj2 (submission_ends SimpleEngine.engine hello_reply two_pending H))
      as [Hok | [Hbad _]]; [exact Hok |].
    vm_compute in Hbad. discriminate.
  - destruct (proj2 (submission_ends SimpleEngine.engine too_large two_pending H))
      as [Hok | [Hbad _]]; [| exact Hbad].
    vm_compute in Hok. discriminate.
Defined.

Lemma bind_throw A B (e : js_error) (k : A -> M B) (st : state) :
  bind (throw e) k st = (Throw e, st).
Proof. reflexivity. Qed.

Lemma length_truthy (n : nat) : truthy (VNum (num_of_nat (S n))) = true.
Proof.
  unfold truthy, num_truthy, num_of_nat, num_of_Z, Qeq_bool, inject_Z; simpl.
  reflexivity.
Qed.

(** The path of the try block for a 2xx reply whose [results] is an array
    with a first entry: the request, the assignment, the rendering. *)
Lemma attempt_stored (E : Engine) (w : world) (status : N)
    (v first doc : value) (rest : list value) (st : state) :
  reply w = Response status (Parsed v) -> res_ok status = true ->
  get_prop E v (lit "results") = Normal (VArr (first :: rest)) ->
  get_prop E first (lit "ocr_result") = Normal doc ->
  attempt E w st
  = bind (renderResults E doc (elapsed_seconds E w st))
      (fun _ => showPanel (lit "results"))
      (set_currentResult doc (add_request (upload (selectedFiles st)) st)).
Proof.
  intros Hr Hok Hres Hdoc.
  unfold attempt, fetch, res_json, prop.
  rewrite bind_gets, bind_bind, bind_modify, Hr, bind_ret, Hok.
  cbn [negb]. rewrite bind_ret, bind_ret, bind_lift, Hres.
  change (truthy (VArr (first :: rest))) with true. cbn [negb].
  rewrite bind_bind, bind_lift.
  change (get_prop E (VArr (first :: rest)) (lit "length"))
    with (@Normal value (VNum (num_of_nat (S (length rest))))).
  cbv beta iota. rewrite bind_ret, length_truthy. cbn [negb].
  rewrite bind_ret, bind_lift. cbn [get_first]. rewrite bind_lift, Hdoc.
  rewrite bind_gets. cbv zeta. rewrite bind_modify.
  reflexivity.
Qed.

Lemma try_establishes (P : state -> Prop) A (body : M A)
    (handler : js_error -> M A) (final : M unit) (st : state) :
  P (snd (body st)) -> (forall e, keeps P (handler e)) -> keeps P final ->
  P (snd (try_catch_finally body handler final st)).
Proof.
  intros Hb Hh Hf. unfold try_catch_finally.
  destruct (body st) as [[a | e] st1]; simpl in Hb.
  - specialize (Hf st1 Hb). destruct (final st1) as [[u | e] st2]; exact Hf.
  - specialize (Hh e st1 Hb). destruct (handler e st1) as [r st2]; simpl in Hh.
    specialize (Hf st2 Hh). destruct (final st2) as [[u | e'] st3]; exact Hf.
Qed.

(** X7.  For a 2xx reply whose [results] is an array with a first entry,
    the current result becomes the [ocr_result] of that entry: the other
    entries are not used, and the assignment stands whether or not the
    rendering that follows succeeds. *)
Theorem first_result_stored (E : Engine) (w : world) (st : state) (status : N)
    (v first doc : value) (rest : list value) :
  selectedFiles st <> [] ->
  reply w = Response status (Parsed v) -> res_ok status = true ->
  get_prop E v (lit "results") = Normal (VArr (first :: rest)) ->
  get_prop E first (lit "ocr_result") = Normal doc ->
  currentResult (run (processFiles E w) st) = doc.
Proof.
  intros Hne Hr Hok Hres Hdoc.
  unfold run. rewrite (processFiles_started E w st Hne).
  assert (HP : render_blind (fun s => currentResult s = doc)).
  { intros s Hs. repeat split; intros; exact Hs. }
  apply (try_establishes (fun s => currentResult s = doc)).
  - rewrite (attempt_stored E w status v first doc rest _ Hr Hok Hres Hdoc).
    apply (keeps_bind (fun s => currentResult s = doc)).
    + apply blind_renderResults, HP.
    + intros _. apply blind_showPanel, HP.
    + reflexivity.
  - intros e. apply blind_report, HP.
  - apply blind_release, HP.
Qed.

Lemma first_result_stored_witness :
  selectedFiles two_pending <> [] /\
  currentResult (run (processFiles SimpleEngine.engine hello_reply) two_pending)
  = hello_document.
Proof.
  assert (H : selectedFiles two_pending <> []) by (vm_compute; discriminate).
  split; [exact H |].
  exact (first_result_stored SimpleEngine.engine hello_reply two_pending 200%N
           _ _ hello_document [] H eq_refl eq_refl eq_refl eq_refl).
Defined.

(** X8.  When the first entry of [results] has no [ocr_result], or a
    [null] one, the current result is overwritten with [undefined] (or
    [null]), the rendering fails at its first read, and the user gets the
    empty panel and the engine's message for that read. *)
Theorem missing_result_reported (E : Engine) (w : world) (st : state)
    (status : N) (v first doc : value) (rest : list value) :
  selectedFiles st <> [] ->
  reply w = Response status (Parsed v) -> res_ok status = true ->
  get_prop E v (lit "results") = Normal (VArr (first :: rest)) ->
  get_prop E first (lit "ocr_result") = Normal doc ->
  doc = VUndef \/ doc = VNull ->
  let st' := run (processFiles E w) st in
  currentResult st' = doc /\
  panels st' = (lit "flex", lit "none", lit "none") /\
  text_of (dom st' toast_msg)
  = Some (lit "Error: "
            ++ type_error_message E
                 (ReadOfNullish (if is_defined doc then true else false)
                    (lit "average_confidence"))).
Proof.
  intros Hne Hr Hok Hres Hdoc Hnone st'.
  unfold st', run. rewrite (processFiles_started E w st Hne).
  assert (Hbody : exists st1,
             attempt E w (started w st)
             = (Throw {| message :=
                           type_error_message E
                             (ReadOfNullish (if is_defined doc then true else false)
                                (lit "average_confidence")) |}, st1) /\
             currentResult st1 = doc).
  { rewrite (attempt_stored E w status v first doc rest _ Hr Hok Hres Hdoc).
    eexists. unfold renderResults, prop. rewrite bind_bind, bind_lift.
    destruct Hnone as [-> | ->]; split; reflexivity. }
  destruct Hbody as [st1 [Hbody Hcur]].
  erewrite caught by exact Hbody.
  split; [exact Hcur |]. split; reflexivity.
Qed.

Lemma missing_result_reported_witness :
  let w := replied (Response 200
                      (Parsed (VObj [(lit "results", VArr [VObj []])]))) in
  selectedFiles hello_shown <> [] /\
  currentResult hello_shown = hello_document /\
  currentResult (run (processFiles SimpleEngine.engine w) hello_shown) = VUndef /\
  text_of (dom (run (processFiles SimpleEngine.engine w) hello_shown) toast_msg)
  = Some (lit "Error: Cannot read properties of undefined (reading 'average_confidence')").
Proof.
  intros w.
  assert (H : selectedFiles hello_shown <> []) by (vm_compute; discriminate).
  split; [exact H |]. split; [reflexivity |].
  destruct (missing_result_reported SimpleEngine.engine w hello_shown 200%N
              _ (VObj []) VUndef [] H eq_refl eq_refl eq_refl eq_refl
              (or_introl eq_refl)) as [Hcur [_ Htoast]].
  split; [exact Hcur | exact Htoast].
Defined.

(** ** What rendering leaves alone *)

Ltac other_element :=
  match goal with
  | |- keeps (fun s => dom s ?id = ?e) (on_element ?j ?f) =>
      apply (keeps_on_other (fun x => x = e) id j f); discriminate
  end.

(** X9.  renderResults writes the page and nothing else: the pending
    list, the current result, the clock reading, the request log and the
    timers are as before, and so are the file list, the process button, the
    three panels and the notification. *)
Theorem renderResults_page_only (E : Engine) (data : value) (elapsed : num)
    (st : state) :
  exists d,
    run (renderResults E data elapsed) st = set_dom d st /\
    forall id,
      In id [file_list; process_btn_wrap; process_btn; panel_empty;
             panel_loading; panel_results; toast; toast_msg] ->
      d id = dom st id.
Proof.
  destruct (page_only_state _ (renderResults E data elapsed) st
              (fun P HP => page_only_renderResults E P data elapsed HP))
    as [d Hd].
  exists d. split; [exact Hd |].
  intros id Hin.
  change (d id) with (dom (set_dom d st) id). rewrite <- Hd.
  assert (Hk : keeps (fun s => dom s id = dom st id) (renderResults E data elapsed)).
  { unfold renderResults, updateStats, renderPages, renderPage, prop.
    simpl in Hin.
    repeat (destruct Hin as [<- | Hin]; [frame ltac:(idtac; other_element) |]).
    contradiction. }
  apply Hk. reflexivity.
Qed.

(** ** Copy and download *)

Lemma export_text (E : Engine) (cur : value) (fields : list (jsstring * value)) :
  cur = VObj fields ->
  forall s,
    own (lit "text") fields = Some (VStr s) \/
    (own (lit "text") fields = None /\ s = []) ->
    truthy cur = true /\
    cbind (get_prop E cur (lit "text"))
      (fun t => toStr E (or_const t (VStr []))) = Normal s.
Proof.
  intros -> s H. split; [reflexivity |]. simpl.
  destruct H as [-> | [-> ->]]; [| reflexivity].
  unfold or_const. destruct s; reflexivity.
Qed.

(** X10.  Without a current result ([null], [undefined] or any other
    falsy value) copyText and downloadText do nothing: nothing is handed
    over, no notification is shown, the state is unchanged. *)
Theorem export_needs_result (E : Engine) (access : clipboard_access) (st : state) :
  truthy (currentResult st) = false ->
  copyText E access st = (Normal None, st) /\
  downloadText E st = (Normal None, st).
Proof.
  intros H. unfold copyText, downloadText.
  rewrite !bind_gets, H. split; reflexivity.
Qed.

Lemma export_needs_result_witness :
  truthy (currentResult initial) = false /\
  copyText SimpleEngine.engine Granted initial = (Normal None, initial).
Proof.
  assert (H : truthy (currentResult initial) = false) by reflexivity.
  split; [exact H |].
  exact (proj1 (export_needs_result SimpleEngine.engine Granted initial H)).
Defined.

Lemma bind_two_lifts A B C (c : completion A) (f : A -> completion B)
    (k : B -> M C) (b : B) (st : state) :
  cbind c f = Normal b ->
  bind (lift c) (fun a => bind (lift (f a)) k) st = k b st.
Proof.
  intros H. rewrite bind_lift. destruct c as [a | e]; simpl in H;
    [| discriminate].
  rewrite bind_lift, H. reflexivity.
Qed.

(** X11.  With a current result whose [text] is a string, copyText and
    downloadText hand over that very string, unescaped; with no [text],
    the empty string.  The file offered is named [ocr-result.txt].  The
    copy notification is shown only when the clipboard accepts the text;
    when writing is denied nothing else happens, and without a clipboard
    copyText throws before anything is shown. *)
Theorem export_raw_text (E : Engine) (st : state)
    (fields : list (jsstring * value)) (s : jsstring) :
  currentResult st = VObj fields ->
  own (lit "text") fields = Some (VStr s) \/
  (own (lit "text") fields = None /\ s = []) ->
  (outcome (copyText E Granted) st = Normal (Some s) /\
   text_of (dom (run (copyText E Granted) st) toast_msg)
   = Some (lit "Copied to clipboard!")) /\
  copyText E Denied st = (Normal (Some s), st) /\
  (exists e, copyText E NoClipboard st = (Throw e, st)) /\
  (outcome (downloadText E) st = Normal (Some (lit "ocr-result.txt", s)) /\
   text_of (dom (run (downloadText E) st) toast_msg)
   = Some (lit "Download started!")).
Proof.
  intros Hcur Htext.
  destruct (export_text E (currentResult st) fields Hcur s Htext) as [Ht Hs].
  unfold outcome, run, copyText, downloadText, prop.
  rewrite !bind_gets, Ht. cbn [negb].
  rewrite !bind_ret.
  rewrite !(bind_two_lifts _ _ _ _ _ _ s st Hs).
  repeat split; try reflexivity. eexists; reflexivity.
Qed.

Lemma export_raw_text_witness :
  currentResult hello_shown = hello_document /\
  outcome (copyText SimpleEngine.engine Granted) hello_shown
  = Normal (Some (lit "Hello")) /\
  outcome (downloadText SimpleEngine.engine) hello_shown
  = Normal (Some (lit "ocr-result.txt", lit "Hello")).
Proof.
  assert (H : currentResult hello_shown = hello_document) by reflexivity.
  split; [exact H |].
  destruct (export_raw_text SimpleEngine.engine hello_shown _ (lit "Hello") H
              (or_introl eq_refl)) as [[Hcopy _] [_ [_ [Hdown _]]]].
  split; [exact Hcopy | exact Hdown].
Defined.

Lemma failure_result (E : Engine) (w : world) (st : state) :
  submission_failure E w ->
  currentResult (run (processFiles E w) st) = currentResult st.
Proof.
  intros Hfail.
  destruct (selectedFiles st) as [| f l] eqn:Hfiles.
  - unfold run. rewrite (processFiles_empty E w st Hfiles). reflexivity.
  - assert (Hne : selectedFiles st <> []) by (rewrite Hfiles; discriminate).
    unfold run at 1. rewrite (processFiles_started E w st Hne).
    fold (run (try_catch_finally (attempt E w) report release) (started w st)).
    destruct Hfail as [e Hr | status payload Hr Hok | status v r Hr Hok Hres Hempty].
    + erewrite caught_result by (apply attempt_rejected; exact Hr). reflexivity.
    + erewrite caught_result by (apply attempt_bad_status; eassumption).
      reflexivity.
    + erewrite caught_result by (eapply attempt_no_results; eassumption).
      reflexivity.
Qed.

(** What copyText and downloadText hand over depends on the current result
    alone. *)
Lemma export_of_result (E : Engine) (access : clipboard_access) (a b : state) :
  currentResult a = currentResult b ->
  outcome (copyText E access) a = outcome (copyText E access) b /\
  outcome (downloadText E) a = outcome (downloadText E) b.
Proof.
  intros H.
  unfold outcome, copyText, downloadText, prop, showToast, on_element,
    bind, lift, gets, ret, modify.
  rewrite H.
  destruct (truthy (currentResult b)); [| split; reflexivity]. simpl.
  destruct (get_prop E (currentResult b) (lit "text")) as [t | e]; simpl.
  - destruct (toStr E (or_const t (VStr []))) as [s | e]; simpl;
      (split; [destruct access |]; reflexivity).
  - split; [destruct access |]; reflexivity.
Qed.

(** X12.  After a submission that fails by the network, by a status that
    is not 2xx or by missing or empty results, copyText and downloadText
    hand over what they would have handed over before it, although the
    results panel is no longer displayed. *)
Theorem export_after_failure (E : Engine) (w : world)
    (access : clipboard_access) (st : state) :
  submission_failure E w ->
  outcome (copyText E access) (run (processFiles E w) st)
  = outcome (copyText E access) st /\
  outcome (downloadText E) (run (processFiles E w) st)
  = outcome (downloadText E) st.
Proof.
  intros Hfail. apply export_of_result, failure_result, Hfail.
Qed.

Lemma export_after_failure_witness :
  submission_failure SimpleEngine.engine too_large /\
  panels (run (processFiles SimpleEngine.engine too_large) hello_shown)
  = (lit "flex", lit "none", lit "none") /\
  outcome (copyText SimpleEngine.engine Granted)
    (run (processFiles SimpleEngine.engine too_large) hello_shown)
  = Normal (Some (lit "Hello")).
Proof.
  assert (H : submission_failure SimpleEngine.engine too_large).
  { eapply status_failure; reflexivity. }
  split; [exact H |]. split; [reflexivity |].
  rewrite (proj1 (export_after_failure SimpleEngine.engine too_large Granted
                    hello_shown H)).
  reflexivity.
Defined.

(** ** Selecting files *)

Lemma startsWith_prefix (s p : jsstring) :
  startsWith s p = true <-> exists rest, s = p ++ rest.
Proof.
  revert s. induction p as [| x p IH]; intros s; simpl.
  - split; [intros _; exists s; reflexivity | reflexivity].
  - destruct s as [| c s].
    + split; [discriminate | intros [rest H]; discriminate].
    + rewrite andb_true_iff, N.eqb_eq, IH. split.
      * intros [-> [rest ->]]. exists rest. reflexivity.
      * intros [rest H]. injection H as -> ->. split; [reflexivity |].
        exists rest. reflexivity.
Qed.

Lemma accepted_spec (f : File) :
  accepted f = true <->
  type f = lit "application/pdf" \/ exists rest, type f = lit "image/" ++ rest.
Proof.
  unfold accepted. rewrite orb_true_iff, str_eqb_eq, startsWith_prefix.
  reflexivity.
Qed.

Lemma forEach_writes_return A (id : elem_id) (f : A -> nat -> element -> element)
    (l : list A) :
  forall (i : nat) (st : state),
    fst (forEach_from i (fun x i => on_element id (f x i)) l st) = Normal tt.
Proof.
  induction l as [| x l IH]; intros i st; simpl; [reflexivity |].
  rewrite bind_on_element. apply IH.
Qed.

Lemma renderFileList_returns (E : Engine) (st : state) :
  fst (renderFileList E st) = Normal tt.
Proof.
  unfold renderFileList. rewrite bind_on_element, bind_gets.
  match goal with
  | |- context [Nat.eqb ?n 0] => destruct (Nat.eqb n 0)
  end; [reflexivity |].
  rewrite bind_on_element. apply forEach_writes_return.
Qed.

Lemma on_client_addFiles (E : Engine) (files : list File) (p : page) :
  on_client (addFiles E files) p
  = (Normal tt, {| client := run (addFiles E files) (client p);
                   drag_over := drag_over p;
                   input_files := input_files p |}).
Proof.
  unfold on_client, run.
  assert (H : fst (addFiles E files (client p)) = Normal tt).
  { unfold addFiles. rewrite bind_modify. apply renderFileList_returns. }
  destruct (addFiles E files (client p)) as [r st]. simpl in *. subst r.
  reflexivity.
Qed.

(** X13.  A drop adds to the pending list exactly the dropped files
    whose type is [application/pdf] or starts with [image/], in their
    order, and clears the drag mark of the zone.  A drop with no such file
    leaves the client state as it is. *)
Theorem drop_filters (E : Engine) (files : list File) (p : page) :
  let p' := snd (drop E files p) in
  fst (drop E files p) = Normal tt /\
  drag_over p' = false /\
  input_files p' = input_files p /\
  selectedFiles (client p') = selectedFiles (client p) ++ filter accepted files /\
  (forall f, In f (filter accepted files) <->
             In f files /\
             (type f = lit "application/pdf" \/
              exists rest, type f = lit "image/" ++ rest)) /\
  (filter accepted files = [] -> client p' = client p).
Proof.
  intros p'.
  assert (Hspec : forall f, In f (filter accepted files) <->
                            In f files /\
                            (type f = lit "application/pdf" \/
                             exists rest, type f = lit "image/" ++ rest)).
  { intros f. rewrite filter_In, accepted_spec. reflexivity. }
  unfold p', drop.
  destruct (filter accepted files) as [| f l] eqn:Hf.
  - simpl. rewrite app_nil_r.
    do 4 (split; [reflexivity |]).
    split; [exact Hspec | reflexivity].
  - cbn [length Nat.eqb negb]. rewrite on_client_addFiles. simpl.
    rewrite addFiles_files.
    do 4 (split; [reflexivity |]).
    split; [exact Hspec | discriminate].
Qed.

(** X14.  A change of the file input adds every file of its selection to
    the pending list, in order and whatever the type, and empties the
    selection of the input. *)
Theorem change_adds_all (E : Engine) (p : page) :
  let p' := snd (change E p) in
  fst (change E p) = Normal tt /\
  selectedFiles (client p') = selectedFiles (client p) ++ input_files p /\
  input_files p' = [] /\
  drag_over p' = drag_over p /\
  (input_files p = [] -> client p' = client p).
Proof.
  intros p'. unfold p', change.
  destruct (input_files p) as [| f l] eqn:Hf.
  - simpl. rewrite app_nil_r. repeat split.
  - cbn [length Nat.eqb negb]. rewrite on_client_addFiles. simpl.
    rewrite addFiles_files. repeat split. discriminate.
Qed.

(** ** More on escaping *)

Lemma escape_unit_cases (c : code_unit) :
  (c = amp /\ escape_unit c = lit "&amp;") \/
  (c = lt_sign /\ escape_unit c = lit "&lt;") \/
  (c = gt_sign /\ escape_unit c = lit "&gt;") \/
  (c <> amp /\ c <> lt_sign /\ c <> gt_sign /\ escape_unit c = [c]).
Proof.
  unfold escape_unit.
  destruct (N.eqb_spec c amp) as [-> | Ha]; [left; split; reflexivity |].
  destruct (N.eqb_spec c lt_sign) as [-> | Hl];
    [right; left; split; reflexivity |].
  destruct (N.eqb_spec c gt_sign) as [-> | Hg];
    [right; right; left; split; reflexivity |].
  right; right; right. repeat split; assumption.
Qed.

Lemma escape_units_injective (s1 : jsstring) :
  forall s2, flat_map escape_unit s1 = flat_map escape_unit s2 -> s1 = s2.
Proof.
  induction s1 as [| c1 s1 IH]; intros [| c2 s2] H; simpl in H.
  - reflexivity.
  - destruct (escape_unit_cases c2) as [[_ E2] | [[_ E2] | [[_ E2] | [_ [_ [_ E2]]]]]];
      rewrite E2 in H; discriminate.
  - destruct (escape_unit_cases c1) as [[_ E1] | [[_ E1] | [[_ E1] | [_ [_ [_ E1]]]]]];
      rewrite E1 in H; discriminate.
  - destruct (escape_unit_cases c1)
      as [[-> E1] | [[-> E1] | [[-> E1] | [A1 [L1 [G1 E1]]]]]];
      destruct (escape_unit_cases c2)
        as [[-> E2] | [[-> E2] | [[-> E2] | [A2 [L2 [G2 E2]]]]]];
      rewrite ?E1, ?E2 in H; simpl in H; inversion H; subst;
      try discriminate;
      try solve [exfalso;
                 match goal with
                 | Hn : ?x <> ?y |- _ => apply Hn; reflexivity
                 end];
      f_equal; apply IH; assumption.
Qed.

(** X15.  escapeHtml loses nothing: two strings with the same escaped
    form are the same string. *)
Theorem escapeHtml_injective (s1 s2 : jsstring) :
  escapeHtml s1 = escapeHtml s2 -> s1 = s2.
Proof.
  rewrite !escapeHtml_flat_map. apply escape_units_injective.
Qed.

Lemma escapeHtml_injective_witness :
  escapeHtml (lit "1 < 2") = lit "1 &lt; 2" /\
  (forall s, escapeHtml s = lit "1 &lt; 2" -> s = lit "1 < 2").
Proof.
  assert (H : escapeHtml (lit "1 < 2") = lit "1 &lt; 2") by reflexivity.
  split; [exact H |].
  intros s Hs. apply escapeHtml_injective. rewrite Hs, H. reflexivity.
Defined.

Lemma plain_unit (c : code_unit) :
  length (escape_unit c) = 1 <-> c <> amp /\ c <> lt_sign /\ c <> gt_sign.
Proof.
  destruct (escape_unit_cases c)
    as [[-> E] | [[-> E] | [[-> E] | [A [L [G E]]]]]]; rewrite E; simpl;
    split; try discriminate; try tauto; intros [Ha [Hl Hg]]; congruence.
Qed.

Lemma escape_unit_length (c : code_unit) : 1 <= length (escape_unit c).
Proof.
  destruct (escape_unit_cases c)
    as [[_ E] | [[_ E] | [[_ E] | [_ [_ [_ E]]]]]]; rewrite E; simpl; lia.
Qed.

Lemma escapeHtml_length (s : jsstring) : length s <= length (escapeHtml s).
Proof.
  rewrite escapeHtml_flat_map.
  induction s as [| c s IH]; simpl; [lia |].
  rewrite length_app. pose proof (escape_unit_length c). lia.
Qed.

Lemma escapeHtml_same_length (s : jsstring) :
  length (escapeHtml s) = length s <-> plain s.
Proof.
  rewrite escapeHtml_flat_map. unfold plain.
  induction s as [| c s IH]; simpl.
  - split; [intros _; constructor | reflexivity].
  - rewrite length_app.
    pose proof (escape_unit_length c) as H1.
    pose proof (escapeHtml_length s) as H2.
    rewrite escapeHtml_flat_map in H2. split.
    + intros H. constructor.
      * apply plain_unit. lia.
      * apply IH. lia.
    + intros H. inversion H as [| c' s' Hc Hs]; subst.
      apply plain_unit in Hc. apply IH in Hs. lia.
Qed.

Lemma plain_unchanged (s : jsstring) : plain s -> escapeHtml s = s.
Proof.
  rewrite escapeHtml_flat_map. unfold plain.
  induction 1 as [| c s Hc Hs IH]; simpl; [reflexivity |].
  destruct (escape_unit_cases c)
    as [[-> _] | [[-> _] | [[-> _] | [_ [_ [_ E]]]]]];
    try (destruct Hc as [Ha [Hl Hg]]; congruence).
  rewrite E, IH. reflexivity.
Qed.

Lemma special_leaves_amp (s : jsstring) :
  ~ In amp (escapeHtml s) -> plain s.
Proof.
  rewrite escapeHtml_flat_map. unfold plain. intros H.
  apply Forall_forall. intros c Hc.
  destruct (escape_unit_cases c)
    as [[-> E] | [[-> E] | [[-> E] | [A [L [G E]]]]]];
    try (repeat split; assumption);
    exfalso; apply H; apply in_flat_map; eexists; (split; [exact Hc |]);
    rewrite E; left; reflexivity.
Qed.

(** X16.  escapeHtml returns its argument unchanged exactly when the
    argument holds no [&], [<] or [>]; escaping an escaped string changes it
    again unless the original held none of them; and escaping never
    shortens a string. *)
Theorem escapeHtml_fixed_points (s : jsstring) :
  (escapeHtml s = s <-> plain s) /\
  (escapeHtml (escapeHtml s) = escapeHtml s <-> plain s) /\
  length s <= length (escapeHtml s).
Proof.
  assert (Hfix : forall t, escapeHtml t = t <-> plain t).
  { intros t. split.
    - intros H. apply escapeHtml_same_length. rewrite H. reflexivity.
    - apply plain_unchanged. }
  split; [apply Hfix |]. split; [| apply escapeHtml_length].
  split.
  - intros H. apply Hfix in H. apply special_leaves_amp.
    unfold plain in H. rewrite Forall_forall in H.
    intros Hin. destruct (H amp Hin) as [Ha _]. congruence.
  - intros H. apply Hfix in H. rewrite H. exact H.
Qed.

(** ** Opening and closing a page *)

(** X17.  When both elements exist, togglePage flips the [open] class of
    the body and gives the chevron the same state, whatever the chevron had
    before; no other element changes; and a second call brings both back to
    the state the body had at first. *)
Theorem togglePage_in_step (E : Engine) (bodyId chevId : jsstring)
    (c : open_classes) (was_open : bool) :
  c bodyId = Some was_open -> c chevId <> None ->
  let c' := snd (togglePage E bodyId chevId c) in
  fst (togglePage E bodyId chevId c) = Normal tt /\
  c' bodyId = Some (negb was_open) /\
  c' chevId = Some (negb was_open) /\
  (forall id, id <> bodyId -> id <> chevId -> c' id = c id) /\
  snd (togglePage E bodyId chevId c') bodyId = Some was_open /\
  snd (togglePage E bodyId chevId c') chevId = Some was_open.
Proof.
  intros Hb Hc.
  assert (Hstep : forall c0 b0, c0 bodyId = Some b0 -> c0 chevId <> None ->
            togglePage E bodyId chevId c0
            = (Normal tt,
               set_open chevId (negb b0) (set_open bodyId (negb b0) c0))).
  { intros c0 b0 H0 H1. unfold togglePage. rewrite H0.
    destruct (c0 chevId); [reflexivity | contradiction]. }
  assert (Hset : forall c0 b0,
            set_open chevId b0 (set_open bodyId b0 c0) bodyId = Some b0 /\
            set_open chevId b0 (set_open bodyId b0 c0) chevId = Some b0).
  { intros c0 b0. unfold set_open. rewrite !str_eqb_refl.
    destruct (str_eqb bodyId chevId); split; reflexivity. }
  cbv zeta. rewrite (Hstep c was_open Hb Hc). simpl fst. simpl snd.
  destruct (Hset c (negb was_open)) as [Hb' Hc'].
  split; [reflexivity |]. split; [exact Hb' |]. split; [exact Hc' |].
  split.
  - intros id H1 H2. unfold set_open.
    destruct (str_eqb id chevId) eqn:E1; [apply str_eqb_eq in E1; contradiction |].
    destruct (str_eqb id bodyId) eqn:E2; [apply str_eqb_eq in E2; contradiction |].
    reflexivity.
  - rewrite (Hstep _ (negb was_open) Hb') by (rewrite Hc'; discriminate).
    simpl snd. rewrite negb_involutive. apply Hset.
Qed.

Lemma togglePage_in_step_witness :
  let c : open_classes :=
    fun id => if str_eqb id (lit "page-body-0") then Some false
              else if str_eqb id (lit "chev-0") then Some true
              else None in
  c (lit "page-body-0") = Some false /\
  c (lit "chev-0") <> None /\
  snd (togglePage SimpleEngine.engine (lit "page-body-0") (lit "chev-0") c)
    (lit "chev-0") = Some true.
Proof.
  intros c.
  assert (H1 : c (lit "page-body-0") = Some false) by reflexivity.
  assert (H2 : c (lit "chev-0") <> None) by (vm_compute; discriminate).
  split; [exact H1 |]. split; [exact H2 |].
  exact (proj1 (proj2 (proj2
           (togglePage_in_step SimpleEngine.engine _ _ c false H1 H2)))).
Defined.

(** X18.  togglePage throws when the body element does not exist, with
    nothing changed; when only the chevron does not exist it throws after
    the body has been toggled. *)
Theorem togglePage_missing (E : Engine) (bodyId chevId : jsstring)
    (c : open_classes) :
  (c bodyId = None ->
   exists e, togglePage E bodyId chevId c = (Throw e, c)) /\
  (forall was_open, c bodyId = Some was_open -> c chevId = None ->
   exists e c',
     togglePage E bodyId chevId c = (Throw e, c') /\
     c' bodyId = Some (negb was_open) /\
     (forall id, id <> bodyId -> c' id = c id)).
Proof.
  split.
  - intros H. unfold togglePage. rewrite H. eexists; reflexivity.
  - intros b Hb Hc. unfold togglePage. rewrite Hb, Hc.
    eexists; eexists. split; [reflexivity |]. unfold set_open. split.
    + rewrite str_eqb_refl. reflexivity.
    + intros id Hid.
      destruct (str_eqb id bodyId) eqn:E1;
        [apply str_eqb_eq in E1; contradiction | reflexivity].
Qed.

(** ** The entries of the page list *)

Lemma lit_injective (a b : string) : lit a = lit b -> a = b.
Proof.
  unfold lit. intros H.
  rewrite <- (string_of_list_ascii_of_string a),
    <- (string_of_list_ascii_of_string b).
  f_equal.
  revert H. generalize (list_ascii_of_string b).
  induction (list_ascii_of_string a) as [| x l IH]; intros [| y l'] H;
    simpl in H; try discriminate; [reflexivity |].
  injection H as Hx Hl. f_equal; [| apply IH, Hl].
  rewrite <- (ascii_N_embedding x), <- (ascii_N_embedding y), Hx. reflexivity.
Qed.

Lemma to_uint_nonnil (n : N) : N.to_uint n <> Decimal.Nil.
Proof.
  destruct n as [| p]; [discriminate |].
  apply DecimalPos.Unsigned.to_uint_nonnil.
Qed.

Lemma decimal_injective (a b : N) : decimal a = decimal b -> a = b.
Proof.
  unfold decimal. intros H. apply lit_injective in H.
  apply DecimalN.Unsigned.to_uint_inj.
  assert (Hs : Some (N.to_uint a) = Some (N.to_uint b)).
  { rewrite <- (NilZero.usu (N.to_uint a) (to_uint_nonnil a)),
      <- (NilZero.usu (N.to_uint b) (to_uint_nonnil b)), H. reflexivity. }
  injection Hs as Hs. exact Hs.
Qed.

(** What a run of the callback of renderPages that returns has done. *)
Lemma renderPage_entry (E : Engine) (page : value) (i : nat) (st st' : state) :
  renderPage E page i st = (Normal tt, st') ->
  exists p,
    st' = set_dom (update pages_list (append_child (PageItem p)) (dom st)) st /\
    pi_bodyId p = lit "page-body-" ++ decimal (N.of_nat i) /\
    pi_chevId p = lit "chev-" ++ decimal (N.of_nat i) /\
    (exists pn, get_prop E page (lit "page_number") = Normal pn /\
                toStr E (or_const pn (VNum (num_of_nat (i + 1))))
                = Normal (pi_num p)) /\
    (exists wc, get_prop E page (lit "word_count") = Normal wc /\
                toStr E (or_const wc (VNum (num_of_Z 0))) = Normal (pi_words p)).
Proof.
  intros H. unfold renderPage, prop in H.
  repeat (run_step H; [| discriminate]).
  unfold on_element, modify in H. injection H as <-.
  eexists. split; [reflexivity |]. simpl.
  repeat split; try reflexivity; eexists; split; eauto.
Qed.

Lemma forEach_numbered (E : Engine) (l : list value) :
  forall (i : nat) (st st' : state) (acc : list node),
    forEach_from i (renderPage E) l st = (Normal tt, st') ->
    inner (dom st pages_list) = Nodes acc ->
    exists new,
      inner (dom st' pages_list) = Nodes (acc ++ new) /\
      length new = length l /\
      numbered i new.
Proof.
  induction l as [| page rest IH]; intros i st st' acc H Hacc; simpl in H.
  - injection H as <-. exists []. rewrite app_nil_r.
    split; [exact Hacc |]. split; [reflexivity | exact I].
  - unfold bind in H.
    destruct (renderPage E page i st) as [[[] | e] st1] eqn:Hone;
      [| discriminate].
    destruct (renderPage_entry E page i st st1 Hone)
      as [p [Hst1 [Hbody [Hchev _]]]].
    assert (Hacc1 : inner (dom st1 pages_list) = Nodes (acc ++ [PageItem p])).
    { rewrite Hst1. cbn [dom set_dom]. rewrite update_same.
      unfold append_child. rewrite Hacc. reflexivity. }
    destruct (IH (S i) st1 st' _ H Hacc1) as [new [Hnew [Hlen Hnum]]].
    exists (PageItem p :: new).
    split; [rewrite Hnew, <- app_assoc; reflexivity |].
    split; [simpl; rewrite Hlen; reflexivity |].
    simpl. split; [| exact Hnum].
    exists p. repeat split; assumption.
Qed.

Lemma numbered_nth (new : list node) :
  forall (i k : nat) (n : node),
    numbered i new -> nth_error new k = Some n ->
    exists p, n = PageItem p /\
              pi_bodyId p = lit "page-body-" ++ decimal (N.of_nat (i + k)) /\
              pi_chevId p = lit "chev-" ++ decimal (N.of_nat (i + k)).
Proof.
  induction new as [| n0 new IH]; intros i k n Hnum Hk.
  - destruct k; discriminate.
  - destruct Hnum as [[p [Hp [Hb Hc]]] Hrest].
    destruct k as [| k]; simpl in Hk.
    + injection Hk as <-. exists p. rewrite Nat.add_0_r. repeat split; assumption.
    + destruct (IH (S i) k n Hrest Hk) as [q [Hq [Hqb Hqc]]].
      exists q. replace (i + S k) with (S i + k) by lia.
      repeat split; assumption.
Qed.

(** X19.  When renderPages renders an array of more than one page, the
    list holds one entry per page, the entry at position [k] has the ids
    [page-body-k] and [chev-k], and no two entries share an id. *)
Theorem page_entries_numbered (E : Engine) (l : list value) (st : state) :
  1 < length l ->
  outcome (renderPages E (VArr l)) st = Normal tt ->
  let entries := children (dom (run (renderPages E (VArr l)) st) pages_list) in
  length entries = length l /\
  (forall k n, nth_error entries k = Some n ->
     exists p, n = PageItem p /\
               pi_bodyId p = lit "page-body-" ++ decimal (N.of_nat k) /\
               pi_chevId p = lit "chev-" ++ decimal (N.of_nat k)) /\
  (forall j k p q,
     nth_error entries j = Some (PageItem p) ->
     nth_error entries k = Some (PageItem q) ->
     pi_bodyId p = pi_bodyId q \/ pi_chevId p = pi_chevId q -> j = k).
Proof.
  intros Hlen Hok entries.
  unfold entries, outcome, run in *. rewrite renderPages_array in *.
  destruct (Nat.leb_spec (length l) 1) as [Hle | _]; [lia |].
  unfold forEach in *.
  destruct (forEach_from 0 (renderPage E) l (show_section "block" st))
    as [r st'] eqn:Hrun.
  simpl in Hok. subst r. simpl snd.
  destruct (forEach_numbered E l 0 _ st' [] Hrun eq_refl)
    as [new [Hnew [Hlen' Hnum]]].
  unfold children. rewrite Hnew. simpl app.
  assert (Hnth : forall k n, nth_error new k = Some n ->
            exists p, n = PageItem p /\
                      pi_bodyId p = lit "page-body-" ++ decimal (N.of_nat k) /\
                      pi_chevId p = lit "chev-" ++ decimal (N.of_nat k)).
  { intros k n Hk. apply (numbered_nth new 0 k n Hnum Hk). }
  split; [exact Hlen' |]. split; [exact Hnth |].
  intros j k p q Hj Hk Hsame.
  destruct (Hnth j _ Hj) as [p' [Hp [Hpb Hpc]]]. injection Hp as <-.
  destruct (Hnth k _ Hk) as [q' [Hq [Hqb Hqc]]]. injection Hq as <-.
  apply Nat2N.inj, decimal_injective.
  destruct Hsame as [Hs | Hs].
  - rewrite Hpb, Hqb in Hs. apply app_inv_head in Hs. exact Hs.
  - rewrite Hpc, Hqc in Hs. apply app_inv_head in Hs. exact Hs.
Qed.

Lemma page_entries_numbered_witness :
  let pages := [page_of 1 95 1 "Hello"; page_of 2 90 0 ""] in
  1 < length pages /\
  outcome (renderPages SimpleEngine.engine (VArr pages)) initial = Normal tt /\
  length (children (dom (run (renderPages SimpleEngine.engine (VArr pages))
                           initial) pages_list)) = 2.
Proof.
  intros pages.
  assert (H1 : 1 < length pages) by (simpl; lia).
  assert (H2 : outcome (renderPages SimpleEngine.engine (VArr pages)) initial
               = Normal tt) by reflexivity.
  split; [exact H1 |]. split; [exact H2 |].
  exact (proj1 (page_entries_numbered SimpleEngine.engine pages initial H1 H2)).
Defined.

Lemma forEach_labelled (E : Engine) (l : list value) :
  forall (i : nat) (st st' : state) (acc : list node),
    forEach_from i (renderPage E) l st = (Normal tt, st') ->
    inner (dom st pages_list) = Nodes acc ->
    exists new,
      inner (dom st' pages_list) = Nodes (acc ++ new) /\
      labelled E i l new.
Proof.
  induction l as [| page rest IH]; intros i st st' acc H Hacc; simpl in H.
  - injection H as <-. exists []. rewrite app_nil_r.
    split; [exact Hacc | exact I].
  - unfold bind in H.
    destruct (renderPage E page i st) as [[[] | e] st1] eqn:Hone;
      [| discriminate].
    destruct (renderPage_entry E page i st st1 Hone)
      as [p [Hst1 [_ [_ [Hnum Hwords]]]]].
    assert (Hacc1 : inner (dom st1 pages_list) = Nodes (acc ++ [PageItem p])).
    { rewrite Hst1. cbn [dom set_dom]. rewrite update_same.
      unfold append_child. rewrite Hacc. reflexivity. }
    destruct (IH (S i) st1 st' _ H Hacc1) as [new [Hnew Hlab]].
    exists (PageItem p :: new).
    split; [rewrite Hnew, <- app_assoc; reflexivity |].
    simpl. split; [| exact Hlab].
    exists p. repeat split; assumption.
Qed.

Lemma labelled_nth (E : Engine) (l : list value) :
  forall (i k : nat) (new : list node) (page : value) (p : page_item),
    labelled E i l new ->
    nth_error l k = Some page -> nth_error new k = Some (PageItem p) ->
    (exists pn, get_prop E page (lit "page_number") = Normal pn /\
                toStr E (or_const pn (VNum (num_of_nat (i + k + 1))))
                = Normal (pi_num p)) /\
    (exists wc, get_prop E page (lit "word_count") = Normal wc /\
                toStr E (or_const wc (VNum (num_of_Z 0))) = Normal (pi_words p)).
Proof.
  induction l as [| page0 rest IH]; intros i k new page p Hlab Hl Hn.
  - destruct k; discriminate.
  - destruct new as [| n0 new]; [contradiction |].
    destruct Hlab as [[p0 [Hp0 [Hnum Hwords]]] Hrest].
    destruct k as [| k]; simpl in Hl, Hn.
    + injection Hl as <-. injection Hn as ->. injection Hp0 as <-.
      rewrite Nat.add_0_r. split; assumption.
    + replace (i + S k + 1) with (S i + k + 1) by lia.
      apply (IH (S i) k new page p Hrest Hl Hn).
Qed.

(** X20.  renderPages puts the page number and the word count of a page
    into its entry as they come: a non-empty string is inserted unchanged,
    with no escaping, and a page without a number is numbered by its
    position, counted from 1. *)
Theorem page_number_verbatim (E : Engine) (l : list value) (st : state)
    (k : nat) (fields : list (jsstring * value)) (p : page_item) :
  1 < length l ->
  outcome (renderPages E (VArr l)) st = Normal tt ->
  nth_error l k = Some (VObj fields) ->
  nth_error (children (dom (run (renderPages E (VArr l)) st) pages_list)) k
  = Some (PageItem p) ->
  (forall s, own (lit "page_number") fields = Some (VStr s) -> s <> [] ->
             pi_num p = s) /\
  (own (lit "page_number") fields = None ->
   pi_num p = number_toString E (num_of_nat (k + 1))) /\
  (forall s, own (lit "word_count") fields = Some (VStr s) -> s <> [] ->
             pi_words p = s).
Proof.
  intros Hlen Hok Hpage Hentry.
  unfold outcome, run in *. rewrite renderPages_array in *.
  destruct (Nat.leb_spec (length l) 1) as [Hle | _]; [lia |].
  unfold forEach in *.
  destruct (forEach_from 0 (renderPage E) l (show_section "block" st))
    as [r st'] eqn:Hrun.
  simpl in Hok. subst r. simpl snd in Hentry.
  destruct (forEach_labelled E l 0 _ st' [] Hrun eq_refl) as [new [Hnew Hlab]].
  unfold children in Hentry. rewrite Hnew in Hentry. simpl app in Hentry.
  destruct (labelled_nth E l 0 k new _ p Hlab Hpage Hentry)
    as [[pn [Hpn Hnum]] [wc [Hwc Hwords]]].
  simpl in Hpn, Hwc.
  split; [| split].
  - intros s Hs Hne. rewrite Hs in Hpn. injection Hpn as <-.
    unfold or_const in Hnum. rewrite (nonempty_truthy s Hne) in Hnum.
    simpl in Hnum. congruence.
  - intros Hs. rewrite Hs in Hpn. injection Hpn as <-.
    simpl in Hnum. congruence.
  - intros s Hs Hne. rewrite Hs in Hwc. injection Hwc as <-.
    unfold or_const in Hwords. rewrite (nonempty_truthy s Hne) in Hwords.
    simpl in Hwords. congruence.
Qed.

Lemma page_number_verbatim_witness :
  let marked := VObj [(lit "page_number", VStr (lit "<b>1</b>"));
                      (lit "text", VStr (lit "<b>1</b>"))] in
  let pages := [marked; page_of 2 90 0 ""] in
  1 < length pages /\
  outcome (renderPages SimpleEngine.engine (VArr pages)) initial = Normal tt /\
  forall p,
    nth_error (children (dom (run (renderPages SimpleEngine.engine (VArr pages))
                                initial) pages_list)) 0
    = Some (PageItem p) ->
    pi_num p = lit "<b>1</b>".
Proof.
  intros marked pages.
  assert (H1 : 1 < length pages) by (simpl; lia).
  assert (H2 : outcome (renderPages SimpleEngine.engine (VArr pages)) initial
               = Normal tt) by reflexivity.
  split; [exact H1 |]. split; [exact H2 |].
  intros p Hp.
  apply (proj1 (page_number_verbatim SimpleEngine.engine pages initial 0 _ p
                  H1 H2 eq_refl Hp) (lit "<b>1</b>") eq_refl).
  discriminate.
Defined.

(** ** The full text *)

Lemma renderResults_text (E : Engine) (data : value) (elapsed : num)
    (st st' : state) :
  renderResults E data elapsed st = (Normal tt, st') ->
  exists tx s,
    get_prop E data (lit "text") = Normal tx /\
    toStr E (or_const tx (VStr (lit "No text extracted"))) = Normal s /\
    inner (dom st' res_text) = Text s.
Proof.
  intros H. unfold renderResults, prop in H.
  assert (Hrest :
    forall s m st0,
      keeps (fun x => inner (dom x res_text) = Text s) m ->
      bind (on_element res_text (set_inner (Text s))) (fun _ => m) st0
      = (Normal tt, st') ->
      inner (dom st' res_text) = Text s).
  { intros s m st0 Hm Hrun. rewrite bind_on_element in Hrun.
    replace st' with (snd (m (set_dom
                        (update res_text (set_inner (Text s)) (dom st0))
                        st0))) by (rewrite Hrun; reflexivity).
    apply Hm. reflexivity. }
  repeat (lazymatch type of H with
          | context [bind (on_element res_text _) _ _] => fail
          | _ => idtac
          end;
          run_step H; try discriminate).
  all: eexists; eexists; split; [first [reflexivity | eassumption] |];
    split; [first [eassumption | reflexivity] |].
  all: eapply Hrest; [| exact H].
  all: unfold updateStats, renderPages, renderPage, prop.
  all: frame ltac:(idtac;
                   match goal with
                   | |- keeps (fun x => inner (dom x ?id) = ?c) (on_element ?j ?f) =>
                       apply (keeps_on_other (fun e => inner e = c) id j f);
                       discriminate
                   end).
Qed.

(** X21.  When renderResults completes, the text element shows the
    [text] of the result unchanged when it is a non-empty string, and
    [No text extracted] when it is absent, empty or [null]. *)
Theorem full_text_shown (E : Engine) (fields : list (jsstring * value))
    (elapsed : num) (st : state) :
  outcome (renderResults E (VObj fields) elapsed) st = Normal tt ->
  let shown :=
    text_of (dom (run (renderResults E (VObj fields) elapsed) st) res_text) in
  (forall s, own (lit "text") fields = Some (VStr s) -> s <> [] ->
             shown = Some s) /\
  (own (lit "text") fields = None \/ own (lit "text") fields = Some (VStr []) \/
   own (lit "text") fields = Some VNull ->
   shown = Some (lit "No text extracted")).
Proof.
  intros Hok shown. unfold shown, outcome, run, text_of in *.
  destruct (renderResults E (VObj fields) elapsed st) as [r st'] eqn:Hrun.
  simpl in Hok. subst r.
  destruct (renderResults_text E _ elapsed st st' Hrun) as [tx [s [Htx [Hs Hshown]]]].
  simpl snd. rewrite Hshown. simpl in Htx. split.
  - intros t Ht Hne. rewrite Ht in Htx. injection Htx as <-.
    unfold or_const in Hs. rewrite (nonempty_truthy t Hne) in Hs.
    simpl in Hs. congruence.
  - intros [Ht | [Ht | Ht]]; rewrite Ht in Htx; injection Htx as <-;
      simpl in Hs; congruence.
Qed.

Lemma full_text_shown_witness :
  outcome (renderResults SimpleEngine.engine null_flag_document (num_of_Z 2))
    initial = Normal tt /\
  text_of (dom (run (renderResults SimpleEngine.engine null_flag_document
                       (num_of_Z 2)) initial) res_text)
  = Some (lit "Hello").
Proof.
  assert (H : outcome (renderResults SimpleEngine.engine null_flag_document
                         (num_of_Z 2)) initial = Normal tt) by reflexivity.
  split; [exact H |].
  apply (proj1 (full_text_shown SimpleEngine.engine _ (num_of_Z 2) initial H)
           (lit "Hello") eq_refl).
  discriminate.
Defined.
